(** * NanEcho automation integration

    A shallow embedding of [src/echoself/NanEcho/automation_integration.py]:
    the configuration loader ([_load_config], [_deep_update]) and the decision
    engine of [NanEchoAutomationIntegrator] (quality gates, performance trends,
    recommendations, next actions, automation triggers, the analysis itself
    and the history that [save_analysis_results] feeds).

    Python values are modelled as the code uses them:
    - a Python [float] is an IEEE 754 binary64 number, here Rocq's primitive
      [float]; [a >= b], [a > b], [a < b], [a - b], [a * b] and [-a] are the
      IEEE operations, so a NaN compares false with everything;
    - [str] is [string]; a dictionary read with [.get(key, default)] is a
      [gmap string _]; a dictionary built by the code with a fixed set of
      keys is a record whose fields carry the keys' names;
    - a parsed JSON document is a [json] tree whose objects keep their
      insertion order, as Python dictionaries do;
    - [self] is a record that every method receives and, when it mutates
      an attribute, returns. *)

From Stdlib Require Import ZArith String List Bool Floats.
From Stdlib Require Uint63.
From stdpp Require Import base option list strings gmap.

Set Warnings "-inexact-float,-register-all".
Local Open Scope string_scope.

(** ** Python comparisons on floats *)

Module Py.

(** [a >= b] *)
Definition ge (a b : float) : bool := PrimFloat.leb b a.
(** [a > b] *)
Definition gt (a b : float) : bool := PrimFloat.ltb b a.
(** [a < b] *)
Definition lt (a b : float) : bool := PrimFloat.ltb a b.

(** [all(...)] over a list of booleans. *)
Definition all (bs : list bool) : bool := forallb (fun b => b) bs.

End Py.

(** ** JSON documents *)

Inductive json : Type :=
| JNull
| JBool (b : bool)
| JInt (n : Z)
| JFloat (x : float)
| JStr (s : string)
| JList (l : list json)
| JDict (d : list (string * json)).

(** A Python dictionary with string keys, in insertion order. *)
Abbreviation dict := (list (string * json)).

Module Dict.

(** [key in d] and [d[key]] *)
Fixpoint get (key : string) (d : dict) : option json :=
  match d with
  | [] => None
  | (k, v) :: d' => if String.eqb key k then Some v else get key d'
  end.

(** [d[key] = value]: replaces the value of an existing key where it
    stands, appends a new key at the end. *)
Fixpoint set (key : string) (value : json) (d : dict) : dict :=
  match d with
  | [] => [(key, value)]
  | (k, v) :: d' =>
      if String.eqb key k then (k, value) :: d'
      else (k, v) :: set key value d'
  end.

Definition keys (d : dict) : list string := map fst d.

End Dict.

(** [_deep_update(base_dict, update_dict)]: the loop over
    [update_dict.items()], threading the updated [base_dict].  The
    recursion descends into the values of [update_dict], so it is written
    on the JSON tree that holds them: [deep_update_items update] is the loop
    for the items of the object [update]. *)
Fixpoint deep_update_items (update : json) (base_dict : dict) {struct update} : dict :=
  match update with
  | JDict update_dict =>
      (fix loop (items : dict) (base_dict : dict) {struct items} : dict :=
         match items with
         | [] => base_dict
         | (key, value) :: items' =>
             loop items'
               match value, Dict.get key base_dict with
               | JDict _, Some (JDict sub) =>
                   Dict.set key (JDict (deep_update_items value sub)) base_dict
               | _, _ => Dict.set key value base_dict
               end
         end) update_dict base_dict
  | _ => base_dict
  end.

Definition _deep_update (base_dict update_dict : dict) : dict :=
  deep_update_items (JDict update_dict) base_dict.

(** What one iteration of the loop of [_deep_update] stores under [key],
    given what [base_dict] holds there: the merge of two dictionaries, and
    [value] itself in every other case. *)
Definition merged_value (held : option json) (value : json) : json :=
  match value, held with
  | JDict update_sub, Some (JDict sub) => JDict (_deep_update sub update_sub)
  | _, _ => value
  end.

(** One iteration of the loop of [_deep_update]. *)
Definition deep_update_step (base_dict : dict) (key : string) (value : json) : dict :=
  Dict.set key (merged_value (Dict.get key base_dict) value) base_dict.

(** The dictionary literal [default_config] of [_load_config]. *)
Definition default_config : dict :=
  [ ("quality_gates", JDict
       [ ("min_fidelity_production", JFloat 0.85);
         ("min_fidelity_development", JFloat 0.70);
         ("min_identity_recognition", JFloat 0.80);
         ("min_persona_consistency", JFloat 0.75);
         ("max_performance_decline", JFloat 0.10) ]);
    ("training_triggers", JDict
       [ ("auto_retrain_on_failure", JBool true);
         ("relentless_training_interval_hours", JInt 4);
         ("max_consecutive_failures", JInt 3);
         ("performance_improvement_threshold", JFloat 0.05) ]);
    ("feedback_integration", JDict
       [ ("enable_hyperparameter_adjustment", JBool true);
         ("enable_dataset_enhancement", JBool true);
         ("enable_curriculum_adaptation", JBool true);
         ("max_training_iterations_increase", JFloat 2.0) ]);
    ("deployment", JDict
       [ ("enable_automated_deployment", JBool false);
         ("require_manual_approval", JBool true);
         ("staging_environment_tests", JBool true) ]) ].

(** [_load_config(config_path)].  [user_config] is [None] when no path is
    given or no file exists there, and [Some d] when the file holds the JSON
    object [d]. *)
Definition _load_config (user_config : option dict) : dict :=
  match user_config with
  | Some user_config => _deep_update default_config user_config
  | None => default_config
  end.

(** Whether an override names [key] of [group]: it does when it replaces
    the whole group by a value that is not an object. *)
Definition overrides (group key : string) (user_config : dict) : bool :=
  match Dict.get group user_config with
  | Some (JDict g) =>
      match Dict.get key g with Some _ => true | None => false end
  | Some _ => true
  | None => false
  end.

(** ** Numbers in a loaded configuration *)

(** [float(n)] for an integer [n]. *)
Definition float_of_Z (n : Z) : float :=
  if (n <? 0)%Z then (- PrimFloat.of_uint63 (Uint63.of_Z (- n)))%float
  else PrimFloat.of_uint63 (Uint63.of_Z n).

(** The float that a configuration value stands for where the methods
    compare a score with it ([score >= value], [change > value]) or
    multiply it ([value * 0.8]).  Python compares a float with an [int] or
    a [bool] by value and converts before it multiplies; up to 2^53 an
    integer is its float, so both are the operation on [float(n)].  A larger
    integer has no single float that stands for it in both operations, and
    any other value makes them raise [TypeError]: these have no reading. *)
Definition number_of_json (v : json) : option float :=
  match v with
  | JFloat x => Some x
  | JInt n => if (Z.abs n <=? 2 ^ 53)%Z then Some (float_of_Z n) else None
  | JBool b => Some (if b then 1%float else 0%float)
  | _ => None
  end.

(** [config[group][key]] of a loaded configuration, as a number. *)
Definition loaded_number (group key : string) (config : dict) : option float :=
  match Dict.get group config with
  | Some (JDict g) => Dict.get key g ≫= number_of_json
  | _ => None
  end.

(** The override, if there is one, names neither of the two fidelity
    thresholds (and has pairwise distinct keys, as every Python dictionary
    has). *)
Definition leaves_fidelity_thresholds (user_config : option dict) : Prop :=
  match user_config with
  | None => True
  | Some user_config =>
      NoDup (Dict.keys user_config)
      /\ overrides "quality_gates" "min_fidelity_production" user_config = false
      /\ overrides "quality_gates" "min_fidelity_development" user_config = false
  end.

(** ** The configuration as the methods read it

    The methods index [self.config] by group and key and use what they find
    as a number, a truth value or an hour count.  [Config.t] holds these
    values at the types of [default_config]; the fields carry the names of
    the keys. *)

Module QualityGates.
Record t := mk {
  min_fidelity_production : float;
  min_fidelity_development : float;
  min_identity_recognition : float;
  min_persona_consistency : float;
  max_performance_decline : float
}.
End QualityGates.

Module TrainingTriggers.
Record t := mk {
  auto_retrain_on_failure : bool;
  relentless_training_interval_hours : Z;
  max_consecutive_failures : Z;
  performance_improvement_threshold : float
}.
End TrainingTriggers.

Module FeedbackIntegration.
Record t := mk {
  enable_hyperparameter_adjustment : bool;
  enable_dataset_enhancement : bool;
  enable_curriculum_adaptation : bool;
  max_training_iterations_increase : float
}.
End FeedbackIntegration.

Module Deployment.
Record t := mk {
  enable_automated_deployment : bool;
  require_manual_approval : bool;
  staging_environment_tests : bool
}.
End Deployment.

Module Config.

Record t := mk {
  quality_gates : QualityGates.t;
  training_triggers : TrainingTriggers.t;
  feedback_integration : FeedbackIntegration.t;
  deployment : Deployment.t
}.

Definition with_deployment (d : Deployment.t) (c : t) : t :=
  mk (quality_gates c) (training_triggers c) (feedback_integration c) d.

(** The typed reading of [default_config]. *)
Definition default : t :=
  mk (QualityGates.mk 0.85 0.70 0.80 0.75 0.10)
     (TrainingTriggers.mk true 4 3 0.05)
     (FeedbackIntegration.mk true true true 2.0)
     (Deployment.mk false true true).

End Config.

(** ** The dictionaries the methods build *)

(** One entry of [gates_status]. *)
Module Gate.
Record t := mk { passed : bool; score : float; threshold : float }.
End Gate.

(** [gates_status], the value of ["individual_gates"]. *)
Module Gates.

Record t := mk {
  overall_fidelity : Gate.t;
  identity_recognition : Gate.t;
  persona_consistency : Gate.t
}.

(** [.items()], in the order the literal lists the keys. *)
Definition items (g : t) : list (string * Gate.t) :=
  [ ("overall_fidelity", overall_fidelity g);
    ("identity_recognition", identity_recognition g);
    ("persona_consistency", persona_consistency g) ].

(** [.values()] *)
Definition values (g : t) : list Gate.t := map snd (items g).

End Gates.

(** The result of [_evaluate_quality_gates]. *)
Module QualityStatus.
Record t := mk {
  status : string;
  overall_passed : bool;
  individual_gates : Gates.t;
  min_required_fidelity : float;
  deployment_ready : bool
}.
End QualityStatus.

(** The result of [_analyze_performance_trends]; the ["initial"] result has
    no ["previous_fidelity"] and no ["current_fidelity"] key. *)
Module Trend.
Record t := mk {
  trend : string;
  change : float;
  status : string;
  previous_fidelity : option float;
  current_fidelity : option float
}.
End Trend.

(** The result of [_generate_improvement_recommendations]. *)
Module Recommendations.

Record t := mk {
  immediate : list string;
  next_training_cycle : list string;
  long_term : list string;
  hyperparameter_adjustments : list string
}.

Definition append_immediate (s : string) (r : t) : t :=
  mk (immediate r ++ [s]) (next_training_cycle r) (long_term r)
     (hyperparameter_adjustments r).
Definition extend_next_training_cycle (l : list string) (r : t) : t :=
  mk (immediate r) (next_training_cycle r ++ l) (long_term r)
     (hyperparameter_adjustments r).
Definition append_long_term (s : string) (r : t) : t :=
  mk (immediate r) (next_training_cycle r) (long_term r ++ [s])
     (hyperparameter_adjustments r).
Definition append_hyperparameter_adjustments (s : string) (r : t) : t :=
  mk (immediate r) (next_training_cycle r) (long_term r)
     (hyperparameter_adjustments r ++ [s]).

End Recommendations.

(** The result of [_determine_next_actions]. *)
Module Actions.

Record t := mk {
  continue_training : bool;
  deploy_model : bool;
  retrain_required : bool;
  enable_relentless_mode : bool;
  schedule_next_cycle : bool;
  manual_review_needed : bool
}.

Definition set_continue_training (b : bool) (a : t) : t :=
  mk b (deploy_model a) (retrain_required a) (enable_relentless_mode a)
     (schedule_next_cycle a) (manual_review_needed a).
Definition set_deploy_model (b : bool) (a : t) : t :=
  mk (continue_training a) b (retrain_required a) (enable_relentless_mode a)
     (schedule_next_cycle a) (manual_review_needed a).
Definition set_retrain_required (b : bool) (a : t) : t :=
  mk (continue_training a) (deploy_model a) b (enable_relentless_mode a)
     (schedule_next_cycle a) (manual_review_needed a).
Definition set_enable_relentless_mode (b : bool) (a : t) : t :=
  mk (continue_training a) (deploy_model a) (retrain_required a) b
     (schedule_next_cycle a) (manual_review_needed a).
Definition set_schedule_next_cycle (b : bool) (a : t) : t :=
  mk (continue_training a) (deploy_model a) (retrain_required a)
     (enable_relentless_mode a) b (manual_review_needed a).
Definition set_manual_review_needed (b : bool) (a : t) : t :=
  mk (continue_training a) (deploy_model a) (retrain_required a)
     (enable_relentless_mode a) (schedule_next_cycle a) b.

End Actions.

(** The result of [_generate_automation_triggers]. *)
Module Triggers.

Record t := mk {
  trigger_next_training : bool;
  training_delay_hours : Z;
  hyperparameter_adjustments : gmap string string;
  dataset_enhancements : list string;
  notification_required : bool
}.

Definition set_trigger_next_training (b : bool) (x : t) : t :=
  mk b (training_delay_hours x) (hyperparameter_adjustments x)
     (dataset_enhancements x) (notification_required x).
Definition set_training_delay_hours (h : Z) (x : t) : t :=
  mk (trigger_next_training x) h (hyperparameter_adjustments x)
     (dataset_enhancements x) (notification_required x).
Definition set_hyperparameter_adjustments (m : gmap string string) (x : t) : t :=
  mk (trigger_next_training x) (training_delay_hours x) m
     (dataset_enhancements x) (notification_required x).
Definition set_notification_required (b : bool) (x : t) : t :=
  mk (trigger_next_training x) (training_delay_hours x)
     (hyperparameter_adjustments x) (dataset_enhancements x) b.

End Triggers.

(** [analysis_results], the result of [analyze_training_results]. *)
Module Analysis.
Record t := mk {
  timestamp : string;
  model_path : string;
  training_mode : string;
  overall_fidelity : float;
  quality_gate_status : QualityStatus.t;
  performance_analysis : Trend.t;
  recommendations : Recommendations.t;
  next_actions : Actions.t;
  automation_triggers : Triggers.t
}.
End Analysis.

(** One entry of [improvement_history], as [save_analysis_results] builds
    it. *)
Module History.
Record t := mk {
  timestamp : string;
  fidelity_metrics : gmap string float;
  quality_status : string;
  training_mode : string
}.
End History.

(** The attributes of a [NanEchoAutomationIntegrator]: what [__init__]
    assigns on [self]. *)
Module NanEchoAutomationIntegrator.

Record t := mk {
  config : Config.t;
  results_cache : gmap string Analysis.t;
  improvement_history : list History.t
}.

Definition set_results_cache (c : gmap string Analysis.t) (self : t) : t :=
  mk (config self) c (improvement_history self).
Definition set_improvement_history (h : list History.t) (self : t) : t :=
  mk (config self) (results_cache self) h.

End NanEchoAutomationIntegrator.

Module Integrator := NanEchoAutomationIntegrator.

(** ** The decision methods *)

(** [d.get(key, 0.0)] on a metrics dictionary. *)
Definition get_metric (d : gmap string float) (key : string) : float :=
  default 0%float (d !! key).

(** [_evaluate_quality_gates(fidelity_metrics, training_mode)] *)
Definition _evaluate_quality_gates (self : Integrator.t)
    (fidelity_metrics : gmap string float) (training_mode : string)
  : QualityStatus.t :=
  let gates := Config.quality_gates (Integrator.config self) in
  let min_fidelity :=
    if training_mode =? "relentless" then
      QualityGates.min_fidelity_production gates
    else if training_mode =? "ci" then
      (QualityGates.min_fidelity_development gates * 0.8)%float
    else
      QualityGates.min_fidelity_development gates in
  let overall_fidelity := get_metric fidelity_metrics "overall_fidelity" in
  let identity_recognition := get_metric fidelity_metrics "identity_recognition" in
  let persona_consistency := get_metric fidelity_metrics "persona_consistency" in
  let gates_status :=
    Gates.mk
      (Gate.mk (Py.ge overall_fidelity min_fidelity)
               overall_fidelity min_fidelity)
      (Gate.mk (Py.ge identity_recognition (QualityGates.min_identity_recognition gates))
               identity_recognition (QualityGates.min_identity_recognition gates))
      (Gate.mk (Py.ge persona_consistency (QualityGates.min_persona_consistency gates))
               persona_consistency (QualityGates.min_persona_consistency gates)) in
  let all_passed := Py.all (map Gate.passed (Gates.values gates_status)) in
  QualityStatus.mk
    (if all_passed then "passed" else "failed")
    all_passed
    gates_status
    min_fidelity
    (all_passed && Py.ge overall_fidelity (QualityGates.min_fidelity_production gates)).

(** [_analyze_performance_trends(current_metrics)] *)
Definition _analyze_performance_trends (self : Integrator.t)
    (current_metrics : gmap string float) : Trend.t :=
  match last (Integrator.improvement_history self) with
  | None => Trend.mk "initial" 0%float "baseline" None None
  | Some previous =>
      let previous_metrics := History.fidelity_metrics previous in
      let previous_fidelity := get_metric previous_metrics "overall_fidelity" in
      let current_fidelity := get_metric current_metrics "overall_fidelity" in
      let change := (current_fidelity - previous_fidelity)%float in
      let threshold :=
        TrainingTriggers.performance_improvement_threshold
          (Config.training_triggers (Integrator.config self)) in
      let max_decline :=
        QualityGates.max_performance_decline
          (Config.quality_gates (Integrator.config self)) in
      let '(trend, status) :=
        if Py.gt change threshold then ("improving", "good")
        else if Py.lt change (- max_decline)%float then ("declining", "concerning")
        else ("stable", "neutral") in
      Trend.mk trend change status (Some previous_fidelity) (Some current_fidelity)
  end.

(** The body of [for gate in failed_gates] in
    [_generate_improvement_recommendations]. *)
Definition recommend_for_failed_gate (recommendations : Recommendations.t)
    (gate : string) : Recommendations.t :=
  if gate =? "identity_recognition" then
    Recommendations.append_hyperparameter_adjustments "increase_identity_weight"
      (Recommendations.append_immediate
         "Increase Echo Self identity training examples" recommendations)
  else if gate =? "persona_consistency" then
    Recommendations.append_hyperparameter_adjustments "balance_persona_weights"
      (Recommendations.append_immediate
         "Balance training across all persona dimensions" recommendations)
  else if gate =? "overall_fidelity" then
    Recommendations.append_hyperparameter_adjustments "extend_training_duration"
      (Recommendations.append_immediate
         "Review overall training approach" recommendations)
  else recommendations.

(** [_generate_improvement_recommendations(fidelity_metrics, training_mode,
    quality_status)] *)
Definition _generate_improvement_recommendations
    (fidelity_metrics : gmap string float) (training_mode : string)
    (quality_status : QualityStatus.t) : Recommendations.t :=
  let recommendations := Recommendations.mk [] [] [] [] in
  let overall_fidelity := get_metric fidelity_metrics "overall_fidelity" in
  let failed_gates :=
    map fst
      (List.filter (fun item => negb (Gate.passed (snd item)))
         (Gates.items (QualityStatus.individual_gates quality_status))) in
  let recommendations :=
    fold_left recommend_for_failed_gate failed_gates recommendations in
  let recommendations :=
    if Py.lt overall_fidelity 0.6 then
      Recommendations.extend_next_training_cycle
        [ "Increase training iterations significantly";
          "Enhance data quality and diversity";
          "Review model architecture parameters" ] recommendations
    else if Py.lt overall_fidelity 0.8 then
      Recommendations.extend_next_training_cycle
        [ "Fine-tune with targeted examples";
          "Adjust attention mechanism parameters" ] recommendations
    else recommendations in
  if training_mode =? "relentless" then
    let recommendations :=
      if Py.lt overall_fidelity 0.85 then
        Recommendations.extend_next_training_cycle
          [ "Increase relentless training frequency" ] recommendations
      else recommendations in
    Recommendations.append_long_term
      "Monitor continuous improvement trends" recommendations
  else
    if Py.gt overall_fidelity 0.75 then
      Recommendations.extend_next_training_cycle
        [ "Consider enabling relentless training mode" ] recommendations
    else recommendations.

(** The [if]/[elif]/[else] of [_determine_next_actions], on the initial
    [actions] (all [False]): the value of [actions] before the final
    relentless rule. *)
Definition next_actions_branches (quality_status : QualityStatus.t)
    (training_mode : string) : Actions.t :=
  let actions := Actions.mk false false false false false false in
  if QualityStatus.deployment_ready quality_status then
    let actions := Actions.set_deploy_model true actions in
    if negb (training_mode =? "relentless") then
      Actions.set_schedule_next_cycle true
        (Actions.set_enable_relentless_mode true actions)
    else actions
  else if QualityStatus.status quality_status =? "passed" then
    Actions.set_schedule_next_cycle true
      (Actions.set_continue_training true actions)
  else
    if Py.lt (Gate.score (Gates.overall_fidelity
                (QualityStatus.individual_gates quality_status))) 0.5 then
      Actions.set_manual_review_needed true
        (Actions.set_retrain_required true actions)
    else
      Actions.set_schedule_next_cycle true
        (Actions.set_continue_training true actions).

(** [_determine_next_actions(quality_status, recommendations,
    training_mode)]: the branches, then the rule for relentless mode. *)
Definition _determine_next_actions (quality_status : QualityStatus.t)
    (recommendations : Recommendations.t) (training_mode : string)
  : Actions.t :=
  let actions := next_actions_branches quality_status training_mode in
  if (training_mode =? "relentless")
     && negb (QualityStatus.deployment_ready quality_status) then
    Actions.set_schedule_next_cycle true actions
  else actions.

(** [_generate_automation_triggers(quality_status, training_mode)] *)
Definition _generate_automation_triggers (self : Integrator.t)
    (quality_status : QualityStatus.t) (training_mode : string)
  : Triggers.t :=
  let triggers := Triggers.mk false 0 ∅ [] false in
  let config := Config.training_triggers (Integrator.config self) in
  let triggers :=
    if negb (QualityStatus.overall_passed quality_status)
       && TrainingTriggers.auto_retrain_on_failure config then
      Triggers.set_notification_required true
        (Triggers.set_training_delay_hours 1
           (Triggers.set_trigger_next_training true triggers))
    else triggers in
  let triggers :=
    if training_mode =? "relentless" then
      Triggers.set_training_delay_hours
        (TrainingTriggers.relentless_training_interval_hours config)
        (Triggers.set_trigger_next_training true triggers)
    else triggers in
  let overall_fidelity :=
    Gate.score (Gates.overall_fidelity
      (QualityStatus.individual_gates quality_status)) in
  if Py.lt overall_fidelity 0.7 then
    Triggers.set_hyperparameter_adjustments
      (<["max_iters" := "increase"]>
         (<["learning_rate" := "increase"]>
            (Triggers.hyperparameter_adjustments triggers)))
      triggers
  else triggers.

(** ** Analysis and history *)

(** [evaluation_data]: the report read from [evaluation_report_path] or,
    when there is none, what [_run_real_evaluation] returns.  Only its
    ["fidelity_metrics"] key is read. *)
Record EvaluationData := {
  fidelity_metrics : option (gmap string float)
}.

(** [analyze_training_results(model_path, evaluation_report_path,
    training_mode)], from the point where [evaluation_data] is at hand.
    [now] and [now'] are the two readings of [datetime.now().isoformat()]:
    the timestamp of the result and the key under which it is cached. *)
Definition analyze_training_results (self : Integrator.t)
    (now now' : string) (model_path : string)
    (evaluation_data : EvaluationData) (training_mode : string)
  : Analysis.t * Integrator.t :=
  let fidelity_metrics := default ∅ (fidelity_metrics evaluation_data) in
  let overall_fidelity := get_metric fidelity_metrics "overall_fidelity" in
  let quality_status :=
    _evaluate_quality_gates self fidelity_metrics training_mode in
  let performance_analysis :=
    _analyze_performance_trends self fidelity_metrics in
  let recommendations :=
    _generate_improvement_recommendations
      fidelity_metrics training_mode quality_status in
  let next_actions :=
    _determine_next_actions quality_status recommendations training_mode in
  let analysis_results :=
    Analysis.mk now model_path training_mode overall_fidelity quality_status
      performance_analysis recommendations next_actions
      (_generate_automation_triggers self quality_status training_mode) in
  (analysis_results,
   Integrator.set_results_cache
     (<[now' := analysis_results]> (Integrator.results_cache self)) self).

(** [save_analysis_results(results, output_path)]: the new attributes of
    [self] and the file written, as its path and content. *)
Definition save_analysis_results (self : Integrator.t)
    (results : Analysis.t) (output_path : string)
  : Integrator.t * (string * Analysis.t) :=
  let self :=
    Integrator.set_improvement_history
      (Integrator.improvement_history self ++
         [ History.mk
             (Analysis.timestamp results)
             {[ "overall_fidelity" := Analysis.overall_fidelity results ]}
             (QualityStatus.status (Analysis.quality_gate_status results))
             (Analysis.training_mode results) ])
      self in
  (self, (output_path, results)).

(** ** Runs of an integrator

    The two methods that assign attributes of [self] after [__init__], as
    calls with their arguments ([analyze_training_results] with the inputs
    it reads from the clock and the report). *)
Inductive call : Type :=
| Analyze (now now' model_path : string) (evaluation_data : EvaluationData)
    (training_mode : string)
| Save (results : Analysis.t) (output_path : string).

Definition step (self : Integrator.t) (c : call) : Integrator.t :=
  match c with
  | Analyze now now' model_path evaluation_data training_mode =>
      snd (analyze_training_results self now now' model_path
             evaluation_data training_mode)
  | Save results output_path =>
      fst (save_analysis_results self results output_path)
  end.

Definition run (self : Integrator.t) (calls : list call) : Integrator.t :=
  fold_left step calls self.

Definition is_analyze (c : call) : bool :=
  match c with Analyze _ _ _ _ _ => true | Save _ _ => false end.

(** The history entries that the [Save] calls of a run carry, in order. *)
Definition saved_entries (calls : list call) : list History.t :=
  omap (fun c =>
          match c with
          | Analyze _ _ _ _ _ => None
          | Save results _ =>
              Some (History.mk
                      (Analysis.timestamp results)
                      {[ "overall_fidelity" := Analysis.overall_fidelity results ]}
                      (QualityStatus.status (Analysis.quality_gate_status results))
                      (Analysis.training_mode results))
          end) calls.

(** ** Inputs of the scenarios *)

(** A metrics record with every score equal to [x]. *)
Definition uniform_metrics (x : float) : gmap string float :=
  list_to_map
    [ ("identity_recognition", x);
      ("persona_consistency", x);
      ("adaptive_attention_understanding", x);
      ("recursive_reasoning_capability", x);
      ("hypergraph_comprehension", x);
      ("cognitive_synergy_demonstration", x);
      ("overall_fidelity", x) ].

(** A fresh integrator with the given configuration. *)
Definition fresh (config : Config.t) : Integrator.t :=
  Integrator.mk config ∅ [].

(** ** The synthetic evaluation

    [_generate_fallback_evaluation_data()], with what it takes from its
    environment as inputs: the six values returned by [random.uniform], in
    the order of the calls, and the reading of [time.time()] stored as the
    timestamp.  The rounding of the builtin [sum] over floats depends on the
    interpreter (compensated from Python 3.12 on), so [sum] is a variable
    of the section. *)

(** The builtins [min(a, b)] and [max(a, b)]: the first argument stays
    unless the second compares strictly below (above) it. *)
Definition py_min (a b : float) : float := if Py.lt b a then b else a.
Definition py_max (a b : float) : float := if Py.gt b a then b else a.

(** The dictionary returned by [_generate_fallback_evaluation_data]. *)
Module Fallback.
Record t := mk {
  fidelity_metrics : gmap string float;
  evaluation_timestamp : float;
  status : string;
  note : string
}.
End Fallback.

(** The six values returned by [random.uniform]. *)
Module Draws.
Record t := mk {
  identity : float;
  persona : float;
  attention : float;
  recursive : float;
  hypergraph : float;
  synergy : float
}.
End Draws.

Section FallbackEvaluation.

Variable py_sum : list float -> float.

Definition _generate_fallback_evaluation_data (draws : Draws.t) (now : float)
  : Fallback.t :=
  let base_performance := 0.65%float in
  let identity_score := (base_performance + Draws.identity draws)%float in
  let persona_score := (base_performance + Draws.persona draws)%float in
  let attention_score := (base_performance + Draws.attention draws)%float in
  let recursive_score := (base_performance + Draws.recursive draws)%float in
  let hypergraph_score := (base_performance + Draws.hypergraph draws)%float in
  let synergy_score := (base_performance + Draws.synergy draws)%float in
  let scores :=
    [ identity_score; persona_score; attention_score; recursive_score;
      hypergraph_score; synergy_score ] in
  let scores := map (fun score => py_max 0.0 (py_min 1.0 score)) scores in
  (* [len(scores)] is 6 *)
  let overall_fidelity := (py_sum scores / 6)%float in
  Fallback.mk
    (list_to_map
       [ ("identity_recognition", nth 0 scores 0%float);
         ("persona_consistency", nth 1 scores 0%float);
         ("adaptive_attention_understanding", nth 2 scores 0%float);
         ("recursive_reasoning_capability", nth 3 scores 0%float);
         ("hypergraph_comprehension", nth 4 scores 0%float);
         ("cognitive_synergy_demonstration", nth 5 scores 0%float);
         ("overall_fidelity", overall_fidelity) ])
    now
    "fallback_synthetic_data"
    "Generated when real evaluation unavailable".

End FallbackEvaluation.

(** ** The command line

    The first steps of [main()], the same on every path: build the
    integrator, analyze, save to [args.output_path].  [config] is the
    configuration of the new integrator as its methods read it; beside it
    [__init__] assigns an empty [results_cache] and an empty
    [improvement_history].  What follows in [main] reads [results] and
    leaves the integrator's history alone. *)
Definition main_analyze_and_save (config : Config.t)
    (now now' : string) (model_path : string)
    (evaluation_data : EvaluationData) (training_mode : string)
    (output_path : string)
  : Analysis.t * Integrator.t * (string * Analysis.t) :=
  let integrator := Integrator.mk config ∅ [] in
  let '(results, integrator) :=
    analyze_training_results integrator now now' model_path
      evaluation_data training_mode in
  let '(integrator, written) :=
    save_analysis_results integrator results output_path in
  (results, integrator, written).

(** ** Agreement of metrics dictionaries *)

(** The keys of a metrics dictionary that the methods read. *)
Definition gate_keys : list string :=
  [ "overall_fidelity"; "identity_recognition"; "persona_consistency" ].

(** ** Dictionaries with distinct keys *)

(** The keys of every dictionary in the tree are pairwise distinct, as in
    every Python value: at this dictionary and in the dictionaries it holds
    as values. *)
Fixpoint distinct_keys (v : json) : Prop :=
  match v with
  | JDict d =>
      NoDup (Dict.keys d)
      /\ (fix all (items : dict) : Prop :=
            match items with
            | [] => True
            | (_, value) :: items' => distinct_keys value /\ all items'
            end) d
  | _ => True
  end.

(** * Properties *)

(** ** The order of IEEE comparisons

    [Py.ge], [Py.gt] and [Py.lt] are the primitive comparisons, specified by
    [SFcompare] on [spec_float]; it is an order on the numbers and answers
    [None] as soon as a NaN is compared. *)

Module FloatOrder.

Ltac by_shape :=
  repeat match goal with
    | x : spec_float |- _ => destruct x as [[]|[]| |[] ? ?]
    end;
  cbn in *; try (intuition congruence).

Ltac by_compare :=
  repeat match goal with
    | H : context [Z.compare ?a ?b] |- _ => destruct (Z.compare_spec a b)
    | |- context [Z.compare ?a ?b] => destruct (Z.compare_spec a b)
    | H : context [Pos.compare_cont Eq ?a ?b] |- _ =>
        change (Pos.compare_cont Eq a b) with (Pos.compare a b) in *;
        destruct (Pos.compare_spec a b)
    | |- context [Pos.compare_cont Eq ?a ?b] =>
        change (Pos.compare_cont Eq a b) with (Pos.compare a b) in *;
        destruct (Pos.compare_spec a b)
    end;
  cbn in *; subst; try (intuition congruence); try lia.

Lemma sf_lt_irrefl (x : spec_float) : SFcompare x x <> Some Lt.
Proof. by_shape; by_compare. Qed.

Lemma sf_le_not_lt (x y : spec_float) :
  SFcompare x y = Some Lt \/ SFcompare x y = Some Eq ->
  SFcompare y x <> Some Lt.
Proof. by_shape; by_compare. Qed.

Lemma sf_lt_le_not_lt (x y z : spec_float) :
  SFcompare x y = Some Lt ->
  SFcompare y z = Some Lt \/ SFcompare y z = Some Eq ->
  SFcompare z x <> Some Lt.
Proof. by_shape; by_compare. Qed.

Lemma ltb_lt (a b : float) :
  PrimFloat.ltb a b = true <-> SFcompare (Prim2SF a) (Prim2SF b) = Some Lt.
Proof.
  rewrite ltb_spec. unfold SFltb.
  destruct (SFcompare _ _) as [[]|]; intuition congruence.
Qed.

Lemma leb_le (a b : float) :
  PrimFloat.leb a b = true <->
  SFcompare (Prim2SF a) (Prim2SF b) = Some Lt
  \/ SFcompare (Prim2SF a) (Prim2SF b) = Some Eq.
Proof.
  rewrite leb_spec. unfold SFleb.
  destruct (SFcompare _ _) as [[]|]; intuition congruence.
Qed.

End FloatOrder.

(** [a > a] is false. *)
Lemma gt_irrefl (a : float) : Py.gt a a = false.
Proof.
  unfold Py.gt. apply not_true_is_false. rewrite FloatOrder.ltb_lt.
  apply FloatOrder.sf_lt_irrefl.
Qed.

(** [a < a] is false. *)
Lemma lt_irrefl (a : float) : Py.lt a a = false.
Proof. exact (gt_irrefl a). Qed.

(** [a >= b] excludes [a < b]. *)
Lemma ge_not_lt (a b : float) : Py.ge a b = true -> Py.lt a b = false.
Proof.
  unfold Py.ge, Py.lt. rewrite FloatOrder.leb_le. intros H.
  apply not_true_is_false. rewrite FloatOrder.ltb_lt.
  now apply FloatOrder.sf_le_not_lt.
Qed.

(** [x < lo] and [hi >= lo] exclude [x > hi]. *)
Lemma lt_ge_not_gt (x lo hi : float) :
  Py.lt x lo = true -> Py.ge hi lo = true -> Py.gt x hi = false.
Proof.
  unfold Py.ge, Py.lt, Py.gt.
  rewrite FloatOrder.ltb_lt, FloatOrder.leb_le. intros Hx Hlo.
  apply not_true_is_false. rewrite FloatOrder.ltb_lt.
  now apply (FloatOrder.sf_lt_le_not_lt _ _ _ Hx Hlo).
Qed.

(** ** Dictionaries and [_deep_update] *)

Lemma dict_get_set_eq (key : string) (value : json) (d : dict) :
  Dict.get key (Dict.set key value d) = Some value.
Proof.
  induction d as [|[k v] d IH]; simpl.
  - now rewrite String.eqb_refl.
  - destruct (String.eqb key k) eqn:E; simpl; rewrite E; auto.
Qed.

Lemma dict_get_set_ne (key key' : string) (value : json) (d : dict) :
  key <> key' ->
  Dict.get key' (Dict.set key value d) = Dict.get key' d.
Proof.
  intros Hne. induction d as [|[k v] d IH]; simpl.
  - destruct (String.eqb_spec key' key); congruence.
  - destruct (String.eqb_spec key k) as [->|]; simpl.
    + destruct (String.eqb_spec key' k); congruence.
    + now rewrite IH.
Qed.

Lemma dict_get_None_notin (key : string) (d : dict) :
  key ∉ Dict.keys d -> Dict.get key d = None.
Proof.
  induction d as [|[k v] d IH]; simpl; [easy|].
  rewrite not_elem_of_cons. intros [Hne Hd].
  destruct (String.eqb_spec key k); [congruence|auto].
Qed.

Lemma dict_get_cons_None (key k : string) (v : json) (d : dict) :
  Dict.get key ((k, v) :: d) = None -> key <> k /\ Dict.get key d = None.
Proof.
  simpl. destruct (String.eqb_spec key k); [discriminate|auto].
Qed.

(** The loop of [_deep_update], unrolled. *)
Lemma deep_update_nil (base_dict : dict) : _deep_update base_dict [] = base_dict.
Proof. reflexivity. Qed.

Lemma deep_update_cons (base_dict : dict) (key : string) (value : json)
    (items : dict) :
  _deep_update base_dict ((key, value) :: items)
  = _deep_update (deep_update_step base_dict key value) items.
Proof.
  unfold deep_update_step, merged_value, _deep_update.
  destruct value; try reflexivity.
  cbn [deep_update_items].
  destruct (Dict.get key base_dict) as [[]|]; reflexivity.
Qed.

Lemma deep_update_step_get_eq (base_dict : dict) (key : string) (value : json) :
  Dict.get key (deep_update_step base_dict key value)
  = Some (merged_value (Dict.get key base_dict) value).
Proof. apply dict_get_set_eq. Qed.

Lemma deep_update_step_get_ne (base_dict : dict) (key key' : string) (value : json) :
  key <> key' ->
  Dict.get key' (deep_update_step base_dict key value) = Dict.get key' base_dict.
Proof. apply dict_get_set_ne. Qed.

(** A key the update does not mention keeps its value. *)
Lemma deep_update_get_untouched (update_dict base_dict : dict) (key : string) :
  Dict.get key update_dict = None ->
  Dict.get key (_deep_update base_dict update_dict) = Dict.get key base_dict.
Proof.
  revert base_dict.
  induction update_dict as [|[k v] items IH]; intros base_dict Hkey.
  - reflexivity.
  - apply dict_get_cons_None in Hkey as [Hne Hkey].
    rewrite deep_update_cons, IH by assumption.
    apply deep_update_step_get_ne. congruence.
Qed.

(** A key the update mentions (once, as in every Python dictionary) holds
    the merged value. *)
Lemma deep_update_get_touched (update_dict base_dict : dict) (key : string)
    (value : json) :
  NoDup (Dict.keys update_dict) ->
  Dict.get key update_dict = Some value ->
  Dict.get key (_deep_update base_dict update_dict)
  = Some (merged_value (Dict.get key base_dict) value).
Proof.
  revert base_dict.
  induction update_dict as [|[k v] items IH]; intros base_dict Hnd Hget.
  - discriminate.
  - simpl in Hnd, Hget. apply NoDup_cons in Hnd as [Hk Hnd].
    rewrite deep_update_cons.
    destruct (String.eqb_spec key k) as [->|Hne].
    + injection Hget as ->.
      rewrite deep_update_get_untouched by now apply dict_get_None_notin.
      apply deep_update_step_get_eq.
    + rewrite IH by assumption.
      rewrite deep_update_step_get_ne by congruence. reflexivity.
Qed.

(** ** The default configuration *)

(** [Config.default] holds what the methods read in [default_config]. *)
Lemma default_config_read :
  let gates := Config.quality_gates Config.default in
  let triggers := Config.training_triggers Config.default in
  loaded_number "quality_gates" "min_fidelity_production" default_config
  = Some (QualityGates.min_fidelity_production gates)
  /\ loaded_number "quality_gates" "min_fidelity_development" default_config
     = Some (QualityGates.min_fidelity_development gates)
  /\ loaded_number "quality_gates" "min_identity_recognition" default_config
     = Some (QualityGates.min_identity_recognition gates)
  /\ loaded_number "quality_gates" "min_persona_consistency" default_config
     = Some (QualityGates.min_persona_consistency gates)
  /\ loaded_number "quality_gates" "max_performance_decline" default_config
     = Some (QualityGates.max_performance_decline gates)
  /\ loaded_number "training_triggers" "performance_improvement_threshold"
       default_config
     = Some (TrainingTriggers.performance_improvement_threshold triggers)
  /\ Dict.get "training_triggers" default_config
     = Some (JDict
          [ ("auto_retrain_on_failure",
             JBool (TrainingTriggers.auto_retrain_on_failure triggers));
            ("relentless_training_interval_hours",
             JInt (TrainingTriggers.relentless_training_interval_hours triggers));
            ("max_consecutive_failures",
             JInt (TrainingTriggers.max_consecutive_failures triggers));
            ("performance_improvement_threshold",
             JFloat (TrainingTriggers.performance_improvement_threshold
                       triggers)) ]).
Proof. cbv zeta. split; [reflexivity|]. do 5 (split; [reflexivity|]). reflexivity. Qed.

(** ** Quality gates *)

Lemma all_passed_iff (g : Gates.t) :
  Py.all (map Gate.passed (Gates.values g)) = true <->
  Gate.passed (Gates.overall_fidelity g) = true /\
  Gate.passed (Gates.identity_recognition g) = true /\
  Gate.passed (Gates.persona_consistency g) = true.
Proof.
  unfold Py.all, Gates.values, Gates.items. simpl.
  rewrite !andb_true_iff. tauto.
Qed.

(** C1: for every metrics record, mode and configuration,
    [deployment_ready] holds exactly when the three scores of the record
    reach their thresholds (the overall fidelity the threshold of the mode)
    and the overall fidelity reaches [min_fidelity_production]; the
    [passed] flags of the three gates say the same, and [overall_passed] is
    their conjunction, so [deployment_ready] implies [overall_passed], in
    ["ci"] mode as in every other. *)
Theorem deployment_ready_iff (self : Integrator.t)
    (fidelity_metrics : gmap string float) (training_mode : string) :
  let thresholds := Config.quality_gates (Integrator.config self) in
  let min_fidelity :=
    if training_mode =? "relentless" then
      QualityGates.min_fidelity_production thresholds
    else if training_mode =? "ci" then
      (QualityGates.min_fidelity_development thresholds * 0.8)%float
    else QualityGates.min_fidelity_development thresholds in
  let cleared :=
    Py.ge (get_metric fidelity_metrics "overall_fidelity") min_fidelity = true /\
    Py.ge (get_metric fidelity_metrics "identity_recognition")
          (QualityGates.min_identity_recognition thresholds) = true /\
    Py.ge (get_metric fidelity_metrics "persona_consistency")
          (QualityGates.min_persona_consistency thresholds) = true in
  let result := _evaluate_quality_gates self fidelity_metrics training_mode in
  let gates := QualityStatus.individual_gates result in
  let all_three :=
    Gate.passed (Gates.overall_fidelity gates) = true /\
    Gate.passed (Gates.identity_recognition gates) = true /\
    Gate.passed (Gates.persona_consistency gates) = true in
  (QualityStatus.deployment_ready result = true <->
     cleared /\
     Py.ge (get_metric fidelity_metrics "overall_fidelity")
           (QualityGates.min_fidelity_production thresholds) = true)
  /\ (all_three <-> cleared)
  /\ (QualityStatus.overall_passed result = true <-> cleared)
  /\ (QualityStatus.deployment_ready result = true <->
      all_three /\
      Py.ge (get_metric fidelity_metrics "overall_fidelity")
            (QualityGates.min_fidelity_production thresholds) = true)
  /\ (QualityStatus.overall_passed result = true <-> all_three)
  /\ (QualityStatus.deployment_ready result = true ->
      QualityStatus.overall_passed result = true).
Proof.
  intros thresholds min_fidelity cleared result gates all_three.
  assert (Hflags : all_three <-> cleared).
  { subst all_three cleared gates result min_fidelity thresholds.
    unfold _evaluate_quality_gates.
    cbn [QualityStatus.individual_gates Gates.overall_fidelity
         Gates.identity_recognition Gates.persona_consistency Gate.passed].
    reflexivity. }
  assert (Hall : QualityStatus.overall_passed result = true <-> all_three)
    by apply all_passed_iff.
  assert (Hready : QualityStatus.deployment_ready result
                   = QualityStatus.overall_passed result
                     && Py.ge (get_metric fidelity_metrics "overall_fidelity")
                          (QualityGates.min_fidelity_production thresholds))
    by reflexivity.
  rewrite Hready, andb_true_iff, Hall. tauto.
Qed.

(** C2: the minimum overall fidelity is chosen by the mode: the production
    threshold for ["relentless"], the development threshold times 0.8 for
    ["ci"], the development threshold for every other string; each gate
    carries its score and its threshold and passes exactly when
    [score >= threshold]. *)
Theorem gate_thresholds_by_mode (self : Integrator.t)
    (fidelity_metrics : gmap string float) (training_mode : string) :
  let gates := Config.quality_gates (Integrator.config self) in
  let result := _evaluate_quality_gates self fidelity_metrics training_mode in
  let overall := Gates.overall_fidelity (QualityStatus.individual_gates result) in
  let identity := Gates.identity_recognition (QualityStatus.individual_gates result) in
  let persona := Gates.persona_consistency (QualityStatus.individual_gates result) in
  (training_mode = "relentless" ->
     QualityStatus.min_required_fidelity result
     = QualityGates.min_fidelity_production gates)
  /\ (training_mode = "ci" ->
      QualityStatus.min_required_fidelity result
      = (QualityGates.min_fidelity_development gates * 0.8)%float)
  /\ (training_mode <> "relentless" -> training_mode <> "ci" ->
      QualityStatus.min_required_fidelity result
      = QualityGates.min_fidelity_development gates)
  /\ Gate.threshold overall = QualityStatus.min_required_fidelity result
  /\ Gate.threshold identity = QualityGates.min_identity_recognition gates
  /\ Gate.threshold persona = QualityGates.min_persona_consistency gates
  /\ Gate.score overall = get_metric fidelity_metrics "overall_fidelity"
  /\ Gate.score identity = get_metric fidelity_metrics "identity_recognition"
  /\ Gate.score persona = get_metric fidelity_metrics "persona_consistency"
  /\ Gate.passed overall = Py.ge (Gate.score overall) (Gate.threshold overall)
  /\ Gate.passed identity = Py.ge (Gate.score identity) (Gate.threshold identity)
  /\ Gate.passed persona = Py.ge (Gate.score persona) (Gate.threshold persona).
Proof.
  intros gates result overall identity persona.
  subst result overall identity persona. unfold _evaluate_quality_gates.
  fold gates. cbn [QualityStatus.min_required_fidelity
    QualityStatus.individual_gates Gates.overall_fidelity
    Gates.identity_recognition Gates.persona_consistency
    Gate.threshold Gate.score Gate.passed].
  repeat split.
  - intros ->. reflexivity.
  - intros ->. reflexivity.
  - intros Hr Hc.
    destruct (String.eqb_spec training_mode "relentless"); [contradiction|].
    destruct (String.eqb_spec training_mode "ci"); [contradiction|].
    reflexivity.
Qed.

(** ** Next actions *)

(** The branch taken when the gates failed. *)
Lemma next_actions_branches_failed (quality_status : QualityStatus.t)
    (training_mode : string) :
  QualityStatus.status quality_status = "failed" ->
  QualityStatus.deployment_ready quality_status = false ->
  next_actions_branches quality_status training_mode
  = if Py.lt (Gate.score (Gates.overall_fidelity
                (QualityStatus.individual_gates quality_status))) 0.5
    then Actions.mk false false true false false true
    else Actions.mk true false false false true false.
Proof.
  intros Hstatus Hready. unfold next_actions_branches.
  rewrite Hready, Hstatus. cbn [String.eqb].
  change ("failed" =? "passed") with false.
  destruct (Py.lt _ _); reflexivity.
Qed.

(** C3: for a gate result with status ["failed"] that is not deployment
    ready, planning sets [retrain_required] and [manual_review_needed]
    exactly when the score of the overall fidelity gate is strictly below
    0.5, and otherwise sets [continue_training] and [schedule_next_cycle];
    a score of exactly 0.5 continues training.  Every result of
    [_evaluate_quality_gates] with status ["failed"] is of that kind: not
    all gates passed and it is not deployment ready.  The run with every
    metric at 0.5 in ["standard"] mode under the default configuration
    fails the gates and continues training. *)
Theorem failed_gates_next_actions :
  (forall (quality_status : QualityStatus.t)
          (recommendations : Recommendations.t) (training_mode : string),
     QualityStatus.status quality_status = "failed" ->
     QualityStatus.deployment_ready quality_status = false ->
     let score :=
       Gate.score (Gates.overall_fidelity
         (QualityStatus.individual_gates quality_status)) in
     let actions :=
       _determine_next_actions quality_status recommendations training_mode in
     Actions.retrain_required actions = Py.lt score 0.5
     /\ Actions.manual_review_needed actions = Py.lt score 0.5
     /\ Actions.continue_training actions = negb (Py.lt score 0.5)
     /\ (Py.lt score 0.5 = false -> Actions.schedule_next_cycle actions = true)
     /\ (score = 0.5%float ->
         Actions.continue_training actions = true
         /\ Actions.schedule_next_cycle actions = true
         /\ Actions.retrain_required actions = false
         /\ Actions.manual_review_needed actions = false))
  /\ (forall (self : Integrator.t) (fidelity_metrics : gmap string float)
             (training_mode : string),
        let quality_status :=
          _evaluate_quality_gates self fidelity_metrics training_mode in
        (QualityStatus.status quality_status = "failed" <->
         QualityStatus.overall_passed quality_status = false)
        /\ (QualityStatus.status quality_status = "failed" ->
            QualityStatus.deployment_ready quality_status = false))
  /\ (let self := fresh Config.default in
      let metrics := uniform_metrics 0.5 in
      let quality_status := _evaluate_quality_gates self metrics "standard" in
      let actions :=
        _determine_next_actions quality_status
          (_generate_improvement_recommendations metrics "standard" quality_status)
          "standard" in
      QualityStatus.overall_passed quality_status = false
      /\ QualityStatus.status quality_status = "failed"
      /\ Actions.continue_training actions = true
      /\ Actions.retrain_required actions = false).
Proof.
  split; [|split].
  - intros quality_status recommendations training_mode Hstatus Hready
      score actions.
    assert (Hactions :
      actions =
      let a := if Py.lt score 0.5
               then Actions.mk false false true false false true
               else Actions.mk true false false false true false in
      if training_mode =? "relentless"
      then Actions.set_schedule_next_cycle true a else a).
    { subst actions. unfold _determine_next_actions.
      rewrite (next_actions_branches_failed _ _ Hstatus Hready), Hready.
      fold score. now rewrite andb_true_r. }
    rewrite Hactions. cbn zeta.
    split; [|split; [|split; [|split]]].
    1-3: destruct (Py.lt score 0.5), (training_mode =? "relentless"); reflexivity.
    + intros ->. destruct (training_mode =? "relentless"); reflexivity.
    + intros ->. change (Py.lt 0.5 0.5) with false.
      destruct (training_mode =? "relentless"); repeat split.
  - intros self fidelity_metrics training_mode quality_status.
    subst quality_status. unfold _evaluate_quality_gates.
    cbn [QualityStatus.status QualityStatus.overall_passed
         QualityStatus.deployment_ready].
    destruct (Py.all _); cbn; intuition congruence.
  - vm_compute. auto.
Qed.

(** The gate result of the run with every metric at 0.5, ["standard"] mode,
    default configuration: an instance of the theorem above. *)
Lemma failed_gates_next_actions_witness :
  let quality_status :=
    _evaluate_quality_gates (fresh Config.default) (uniform_metrics 0.5)
      "standard" in
  let recommendations :=
    _generate_improvement_recommendations (uniform_metrics 0.5) "standard"
      quality_status in
  QualityStatus.status quality_status = "failed"
  /\ QualityStatus.deployment_ready quality_status = false
  /\ Actions.retrain_required
       (_determine_next_actions quality_status recommendations "standard")
     = Py.lt 0.5 0.5.
Proof.
  split; [reflexivity|]. split; [reflexivity|].
  apply (proj1 failed_gates_next_actions
           (_evaluate_quality_gates (fresh Config.default) (uniform_metrics 0.5)
              "standard")
           (_generate_improvement_recommendations (uniform_metrics 0.5)
              "standard"
              (_evaluate_quality_gates (fresh Config.default)
                 (uniform_metrics 0.5) "standard"))
           "standard");
    reflexivity.
Defined.

(** ** Automation triggers *)

(** The triggers before the hyperparameter step: the failure rule, then the
    relentless rule. *)
Lemma automation_triggers_schedule (self : Integrator.t)
    (quality_status : QualityStatus.t) (training_mode : string) :
  let config := Config.training_triggers (Integrator.config self) in
  let failed :=
    negb (QualityStatus.overall_passed quality_status)
    && TrainingTriggers.auto_retrain_on_failure config in
  let triggers := _generate_automation_triggers self quality_status training_mode in
  Triggers.trigger_next_training triggers
  = (training_mode =? "relentless") || failed
  /\ Triggers.training_delay_hours triggers
     = (if training_mode =? "relentless"
        then TrainingTriggers.relentless_training_interval_hours config
        else if failed then 1%Z else 0%Z)
  /\ Triggers.notification_required triggers = failed.
Proof.
  intros config failed triggers. subst triggers.
  unfold _generate_automation_triggers. fold config. fold failed.
  destruct failed, (training_mode =? "relentless"), (Py.lt _ _);
    repeat split.
Qed.

(** C4: in ["relentless"] mode the triggers ask for the next training after
    the configured [relentless_training_interval_hours] (4 in the default
    configuration), whatever the gate result; when the gates did not pass
    and [auto_retrain_on_failure] is on, the failure rule has run (the
    notification is required, and any other mode waits 1 hour) and its
    delay is replaced by the interval. *)
Theorem relentless_triggers (self : Integrator.t)
    (quality_status : QualityStatus.t) (training_mode : string) :
  training_mode = "relentless" ->
  let config := Config.training_triggers (Integrator.config self) in
  let triggers := _generate_automation_triggers self quality_status training_mode in
  Triggers.trigger_next_training triggers = true
  /\ Triggers.training_delay_hours triggers
     = TrainingTriggers.relentless_training_interval_hours config
  /\ (Integrator.config self = Config.default ->
      Triggers.training_delay_hours triggers = 4%Z)
  /\ (QualityStatus.overall_passed quality_status = false ->
      TrainingTriggers.auto_retrain_on_failure config = true ->
      Triggers.notification_required triggers = true
      /\ forall other_mode : string,
           other_mode <> "relentless" ->
           Triggers.training_delay_hours
             (_generate_automation_triggers self quality_status other_mode)
           = 1%Z).
Proof.
  intros -> config triggers.
  destruct (automation_triggers_schedule self quality_status "relentless")
    as (Htrigger & Hdelay & Hnotify).
  fold config triggers in Htrigger, Hdelay, Hnotify.
  change ("relentless" =? "relentless") with true in Htrigger, Hdelay.
  split; [exact Htrigger|]. split; [exact Hdelay|]. split.
  - intros Hdefault. rewrite Hdelay. subst config. now rewrite Hdefault.
  - intros Hfailed Hauto. split.
    + rewrite Hnotify, Hfailed. fold config. now rewrite Hauto.
    + intros other_mode Hother.
      destruct (automation_triggers_schedule self quality_status other_mode)
        as (_ & Hdelay' & _).
      rewrite Hdelay'. fold config. rewrite Hfailed, Hauto.
      now destruct (String.eqb_spec other_mode "relentless").
Qed.

(** A failed run in relentless mode under the default configuration. *)
Lemma relentless_triggers_witness :
  let self := fresh Config.default in
  let quality_status :=
    _evaluate_quality_gates self (uniform_metrics 0.5) "relentless" in
  Triggers.trigger_next_training
    (_generate_automation_triggers self quality_status "relentless") = true
  /\ Triggers.training_delay_hours
       (_generate_automation_triggers self quality_status "relentless") = 4%Z.
Proof.
  pose proof (relentless_triggers (fresh Config.default)
                (_evaluate_quality_gates (fresh Config.default)
                   (uniform_metrics 0.5) "relentless")
                "relentless" eq_refl) as (Htrigger & _ & Hdefault & _).
  split; [exact Htrigger|exact (Hdefault eq_refl)].
Defined.

(** ** Performance trends *)

(** The classification against the most recent entry of the history. *)
Lemma analyze_performance_trends_snoc (self : Integrator.t)
    (current_metrics : gmap string float)
    (earlier : list History.t) (previous : History.t) :
  Integrator.improvement_history self = (earlier ++ [previous])%list ->
  let threshold :=
    TrainingTriggers.performance_improvement_threshold
      (Config.training_triggers (Integrator.config self)) in
  let max_decline :=
    QualityGates.max_performance_decline
      (Config.quality_gates (Integrator.config self)) in
  let previous_fidelity :=
    get_metric (History.fidelity_metrics previous) "overall_fidelity" in
  let current_fidelity := get_metric current_metrics "overall_fidelity" in
  let change := (current_fidelity - previous_fidelity)%float in
  _analyze_performance_trends self current_metrics
  = if Py.gt change threshold then
      Trend.mk "improving" change "good"
        (Some previous_fidelity) (Some current_fidelity)
    else if Py.lt change (- max_decline)%float then
      Trend.mk "declining" change "concerning"
        (Some previous_fidelity) (Some current_fidelity)
    else
      Trend.mk "stable" change "neutral"
        (Some previous_fidelity) (Some current_fidelity).
Proof.
  intros Hhistory threshold max_decline previous_fidelity current_fidelity change.
  unfold _analyze_performance_trends. rewrite Hhistory, last_snoc.
  fold threshold max_decline previous_fidelity current_fidelity change.
  destruct (Py.gt change threshold); [reflexivity|].
  destruct (Py.lt change (- max_decline)%float); reflexivity.
Qed.

(** C5, amended: with a non-empty history the tests are tried in order,
    [change > threshold] first, and each is strict.  Under a configuration
    whose improvement threshold is not below minus
    [max_performance_decline] (the default has 0.05 and -0.10) this is the
    classification of the claim: a change above the threshold is
    improving/good, a change below minus [max_performance_decline] is
    declining/concerning, and a change equal to either boundary is
    stable/neutral. *)
Theorem trend_classification_strict (self : Integrator.t)
    (current_metrics : gmap string float)
    (earlier : list History.t) (previous : History.t) :
  Integrator.improvement_history self = (earlier ++ [previous])%list ->
  let threshold :=
    TrainingTriggers.performance_improvement_threshold
      (Config.training_triggers (Integrator.config self)) in
  let max_decline :=
    QualityGates.max_performance_decline
      (Config.quality_gates (Integrator.config self)) in
  let change :=
    (get_metric current_metrics "overall_fidelity"
     - get_metric (History.fidelity_metrics previous) "overall_fidelity")%float in
  let result := _analyze_performance_trends self current_metrics in
  let improving :=
    Trend.trend result = "improving" /\ Trend.status result = "good" in
  let declining :=
    Trend.trend result = "declining" /\ Trend.status result = "concerning" in
  let stable :=
    Trend.trend result = "stable" /\ Trend.status result = "neutral" in
  Trend.change result = change
  /\ (Py.gt change threshold = true -> improving)
  /\ (Py.gt change threshold = false ->
      Py.lt change (- max_decline)%float = true -> declining)
  /\ (Py.gt change threshold = false ->
      Py.lt change (- max_decline)%float = false -> stable)
  /\ (Py.ge threshold (- max_decline)%float = true ->
      (Py.lt change (- max_decline)%float = true -> declining)
      /\ (change = threshold \/ change = (- max_decline)%float -> stable)).
Proof.
  intros Hhistory threshold max_decline change result improving declining stable.
  assert (Hresult := analyze_performance_trends_snoc self current_metrics
                       earlier previous Hhistory).
  cbn zeta in Hresult. fold threshold max_decline change result in Hresult.
  assert (Hdeclining : Py.gt change threshold = false ->
                       Py.lt change (- max_decline)%float = true -> declining).
  { intros Hgt Hlt. subst declining. rewrite Hresult, Hgt, Hlt.
    split; reflexivity. }
  assert (Hstable : Py.gt change threshold = false ->
                    Py.lt change (- max_decline)%float = false -> stable).
  { intros Hgt Hlt. subst stable. rewrite Hresult, Hgt, Hlt.
    split; reflexivity. }
  split; [|split; [|split; [|split]]].
  - rewrite Hresult.
    destruct (Py.gt change threshold); [reflexivity|].
    destruct (Py.lt change (- max_decline)%float); reflexivity.
  - intros Hgt. subst improving. rewrite Hresult, Hgt. split; reflexivity.
  - exact Hdeclining.
  - exact Hstable.
  - intros Hordered. split.
    + intros Hlt. apply Hdeclining; [|exact Hlt].
      exact (lt_ge_not_gt _ _ _ Hlt Hordered).
    + intros [Heq|Heq]; apply Hstable; rewrite Heq.
      * apply gt_irrefl.
      * apply ge_not_lt, Hordered.
      * unfold Py.gt. fold (Py.lt (- max_decline) threshold).
        apply ge_not_lt, Hordered.
      * apply lt_irrefl.
Qed.

(** The run of 0.60 followed by 0.50 under the default configuration: the
    change, -0.09999999999999998, is not below -0.10, so the trend is
    stable. *)
Lemma trend_classification_strict_witness :
  let self :=
    Integrator.mk Config.default ∅
      [ History.mk "t0" {[ "overall_fidelity" := 0.60%float ]} "failed" "standard" ] in
  Trend.trend (_analyze_performance_trends self (uniform_metrics 0.50)) = "stable"
  /\ Trend.status (_analyze_performance_trends self (uniform_metrics 0.50)) = "neutral".
Proof.
  pose proof (trend_classification_strict
                (Integrator.mk Config.default ∅
                   [ History.mk "t0" {[ "overall_fidelity" := 0.60%float ]}
                       "failed" "standard" ])
                (uniform_metrics 0.50) []
                (History.mk "t0" {[ "overall_fidelity" := 0.60%float ]}
                   "failed" "standard")
                eq_refl) as (_ & _ & _ & Hstable & _).
  apply Hstable; reflexivity.
Defined.

(** C5 as stated fails when the improvement threshold lies below minus
    [max_performance_decline], here -0.5 against -0.10: the first test that
    matches decides.  From 0.9 to 0.6 the change is below -0.10 and the
    trend is improving; from 1.0 to 0.5 the change equals the improvement
    threshold and the trend is declining. *)
Lemma trend_first_match_counterexample :
  let config :=
    Config.mk (Config.quality_gates Config.default)
      (TrainingTriggers.mk true 4 3 (-0.5))
      (Config.feedback_integration Config.default)
      (Config.deployment Config.default) in
  let after (x : float) :=
    Integrator.mk config ∅
      [ History.mk "t0" {[ "overall_fidelity" := x ]} "passed" "standard" ] in
  let max_decline := QualityGates.max_performance_decline (Config.quality_gates config) in
  (Py.lt (0.6 - 0.9)%float (- max_decline)%float = true
   /\ Trend.change (_analyze_performance_trends (after 0.9%float) (uniform_metrics 0.6))
      = (0.6 - 0.9)%float
   /\ Trend.trend (_analyze_performance_trends (after 0.9%float) (uniform_metrics 0.6))
      = "improving")
  /\ ((0.5 - 1.0)%float
      = TrainingTriggers.performance_improvement_threshold
          (Config.training_triggers config)
      /\ Trend.change (_analyze_performance_trends (after 1.0%float) (uniform_metrics 0.5))
         = (0.5 - 1.0)%float
      /\ Trend.trend (_analyze_performance_trends (after 1.0%float) (uniform_metrics 0.5))
         = "declining").
Proof. vm_compute. repeat split. Qed.

(** ** The improvement history *)

Lemma analyze_training_results_frame (self : Integrator.t)
    (now now' model_path : string) (evaluation_data : EvaluationData)
    (training_mode : string) :
  let self' :=
    snd (analyze_training_results self now now' model_path evaluation_data
           training_mode) in
  Integrator.improvement_history self' = Integrator.improvement_history self
  /\ Integrator.config self' = Integrator.config self.
Proof. split; reflexivity. Qed.

Lemma step_config (self : Integrator.t) (c : call) :
  Integrator.config (step self c) = Integrator.config self.
Proof. destruct c; reflexivity. Qed.

Lemma step_history (self : Integrator.t) (c : call) :
  Integrator.improvement_history (step self c)
  = (Integrator.improvement_history self ++ saved_entries [c])%list.
Proof.
  destruct c; simpl.
  - now rewrite app_nil_r.
  - reflexivity.
Qed.

Lemma run_config (calls : list call) (self : Integrator.t) :
  Integrator.config (run self calls) = Integrator.config self.
Proof.
  revert self. induction calls as [|c calls IH]; intros self.
  - reflexivity.
  - change (run self (c :: calls)) with (run (step self c) calls).
    now rewrite IH, step_config.
Qed.

Lemma run_history (calls : list call) (self : Integrator.t) :
  Integrator.improvement_history (run self calls)
  = (Integrator.improvement_history self ++ saved_entries calls)%list.
Proof.
  revert self. induction calls as [|c calls IH]; intros self.
  - simpl. now rewrite app_nil_r.
  - change (run self (c :: calls)) with (run (step self c) calls).
    rewrite IH, step_history.
    change (c :: calls) with ([c] ++ calls)%list.
    unfold saved_entries. now rewrite omap_app, app_assoc.
Qed.

Lemma saved_entries_analyze (calls : list call) :
  forallb is_analyze calls = true -> saved_entries calls = [].
Proof.
  induction calls as [|[] calls IH]; simpl; intros H.
  - reflexivity.
  - now apply IH.
  - discriminate.
Qed.

(** The trend depends on [self] through its configuration and its history
    only. *)
Lemma analyze_performance_trends_ext (self self' : Integrator.t)
    (current_metrics : gmap string float) :
  Integrator.config self' = Integrator.config self ->
  Integrator.improvement_history self' = Integrator.improvement_history self ->
  _analyze_performance_trends self' current_metrics
  = _analyze_performance_trends self current_metrics.
Proof.
  intros Hconfig Hhistory. unfold _analyze_performance_trends.
  now rewrite Hconfig, Hhistory.
Qed.

(** C6: [analyze_training_results] leaves the improvement history as it
    was; [save_analysis_results] appends exactly one entry, made of the
    timestamp, the overall fidelity, the quality gate status and the
    training mode of the results; over any run of the two methods the
    history is the initial one followed by the entries of the saves, in
    order; so after any number of analyses without a save, the trend of
    every metrics record is what it was before. *)
Theorem history_grows_only_on_save :
  (forall (self : Integrator.t) (now now' model_path : string)
          (evaluation_data : EvaluationData) (training_mode : string),
     Integrator.improvement_history
       (snd (analyze_training_results self now now' model_path
               evaluation_data training_mode))
     = Integrator.improvement_history self)
  /\ (forall (self : Integrator.t) (results : Analysis.t) (output_path : string),
        Integrator.improvement_history
          (fst (save_analysis_results self results output_path))
        = (Integrator.improvement_history self ++
             [ History.mk
                 (Analysis.timestamp results)
                 {[ "overall_fidelity" := Analysis.overall_fidelity results ]}
                 (QualityStatus.status (Analysis.quality_gate_status results))
                 (Analysis.training_mode results) ])%list)
  /\ (forall (self : Integrator.t) (calls : list call),
        Integrator.improvement_history (run self calls)
        = (Integrator.improvement_history self ++ saved_entries calls)%list
        /\ length (Integrator.improvement_history (run self calls))
           = (length (Integrator.improvement_history self)
              + length (List.filter (fun c => negb (is_analyze c)) calls))%nat)
  /\ (forall (self : Integrator.t) (calls : list call)
             (current_metrics : gmap string float),
        forallb is_analyze calls = true ->
        Integrator.improvement_history (run self calls)
        = Integrator.improvement_history self
        /\ _analyze_performance_trends (run self calls) current_metrics
           = _analyze_performance_trends self current_metrics).
Proof.
  split; [|split; [|split]].
  - intros. apply analyze_training_results_frame.
  - reflexivity.
  - intros self calls. split; [apply run_history|].
    rewrite run_history, length_app. f_equal.
    induction calls as [|[] calls IH]; simpl; auto.
  - intros self calls current_metrics Hcalls.
    assert (Hhistory : Integrator.improvement_history (run self calls)
                       = Integrator.improvement_history self).
    { rewrite run_history, (saved_entries_analyze _ Hcalls).
      apply app_nil_r. }
    split; [exact Hhistory|].
    apply analyze_performance_trends_ext; [apply run_config|exact Hhistory].
Qed.

(** Three analyses in a row after one saved run: the trend of a later
    metrics record is the one computed before them. *)
Lemma history_grows_only_on_save_witness :
  let self :=
    Integrator.mk Config.default ∅
      [ History.mk "t0" {[ "overall_fidelity" := 0.60%float ]} "failed" "standard" ] in
  let report (x : float) := {| fidelity_metrics := Some (uniform_metrics x) |} in
  let calls :=
    [ Analyze "t1" "t1" "model" (report 0.9%float) "standard";
      Analyze "t2" "t2" "model" (report 0.2%float) "ci";
      Analyze "t3" "t3" "model" {| fidelity_metrics := None |} "relentless" ] in
  _analyze_performance_trends (run self calls) (uniform_metrics 0.7)
  = _analyze_performance_trends self (uniform_metrics 0.7).
Proof.
  intros self report calls.
  exact (proj2 (proj2 (proj2 (proj2 history_grows_only_on_save))
                  self calls (uniform_metrics 0.7) eq_refl)).
Defined.

(** ** Hyperparameter adjustments *)

(** C7, amended: when the score of the overall fidelity gate is strictly
    below 0.7 the triggers' [hyperparameter_adjustments] are exactly
    [learning_rate = increase] and [max_iters = increase]; otherwise, and
    so for a score of 0.7 or more, the map stays empty. *)
Theorem hyperparameter_adjustments_below_07 (self : Integrator.t)
    (quality_status : QualityStatus.t) (training_mode : string) :
  let score :=
    Gate.score (Gates.overall_fidelity
      (QualityStatus.individual_gates quality_status)) in
  let adjustments :=
    Triggers.hyperparameter_adjustments
      (_generate_automation_triggers self quality_status training_mode) in
  (Py.lt score 0.7 = true ->
     adjustments !! "learning_rate" = Some "increase"
     /\ adjustments !! "max_iters" = Some "increase"
     /\ adjustments
        = {[ "learning_rate" := "increase"; "max_iters" := "increase" ]})
  /\ (Py.lt score 0.7 = false -> adjustments = ∅)
  /\ (Py.ge score 0.7 = true -> adjustments = ∅).
Proof.
  intros score adjustments.
  assert (Hadjustments :
    adjustments =
    if Py.lt score 0.7
    then <["max_iters" := "increase"]> (<["learning_rate" := "increase"]> ∅)
    else ∅).
  { subst adjustments. unfold _generate_automation_triggers. fold score.
    destruct (negb _ && _), (training_mode =? "relentless"), (Py.lt score 0.7);
      reflexivity. }
  split; [|split].
  - intros Hlt. rewrite Hadjustments, Hlt.
    split; [|split].
    + rewrite lookup_insert_ne by discriminate. apply lookup_insert_eq.
    + apply lookup_insert_eq.
    + apply insert_insert_ne. discriminate.
  - intros Hlt. now rewrite Hadjustments, Hlt.
  - intros Hge. now rewrite Hadjustments, (ge_not_lt _ _ Hge).
Qed.

(** C7 as stated fails on the key: with a score of 0.5 the adjustments hold
    [learning_rate] and [max_iters], and nothing under
    [max_iterations]. *)
Lemma hyperparameter_adjustments_counterexample :
  let self := fresh Config.default in
  let quality_status :=
    _evaluate_quality_gates self (uniform_metrics 0.5) "standard" in
  let adjustments :=
    Triggers.hyperparameter_adjustments
      (_generate_automation_triggers self quality_status "standard") in
  Py.lt (Gate.score (Gates.overall_fidelity
           (QualityStatus.individual_gates quality_status))) 0.7 = true
  /\ adjustments !! "max_iterations" = None
  /\ adjustments !! "max_iters" = Some "increase".
Proof. vm_compute. repeat split. Qed.

(** ** Loaded thresholds *)

(** A key of the quality gates that the override does not name is loaded
    with its default. *)
Lemma load_config_quality_gates_default (user_config : dict) (key : string) :
  NoDup (Dict.keys user_config) ->
  overrides "quality_gates" key user_config = false ->
  exists loaded defaults : dict,
    Dict.get "quality_gates" (_load_config (Some user_config)) = Some (JDict loaded)
    /\ Dict.get "quality_gates" default_config = Some (JDict defaults)
    /\ Dict.get key loaded = Dict.get key defaults.
Proof.
  intros Hnd Hkey. unfold overrides in Hkey. unfold _load_config.
  destruct (Dict.get "quality_gates" user_config) as [value|] eqn:Hgroup.
  - destruct value as [| | | | | |update_gates]; try discriminate.
    destruct (Dict.get key update_gates) eqn:Hupdate; [discriminate|].
    rewrite (deep_update_get_touched _ _ _ _ Hnd Hgroup).
    eexists _, _. split; [reflexivity|]. split; [reflexivity|].
    now apply deep_update_get_untouched.
  - rewrite (deep_update_get_untouched _ _ _ Hgroup).
    eexists _, _. split; [reflexivity|]. split; reflexivity.
Qed.

Lemma loaded_number_default (user_config : dict) (key : string) :
  NoDup (Dict.keys user_config) ->
  overrides "quality_gates" key user_config = false ->
  loaded_number "quality_gates" key (_load_config (Some user_config))
  = loaded_number "quality_gates" key default_config.
Proof.
  intros Hnd Hkey.
  destruct (load_config_quality_gates_default _ _ Hnd Hkey)
    as (loaded & defaults & Hloaded & Hdefaults & Hsame).
  unfold loaded_number. now rewrite Hloaded, Hdefaults, Hsame.
Qed.

Lemma loaded_fidelity_threshold_given (user_config update_gates : dict)
    (key : string) (value : json) :
  NoDup (Dict.keys user_config) ->
  Dict.get "quality_gates" user_config = Some (JDict update_gates) ->
  NoDup (Dict.keys update_gates) ->
  key = "min_fidelity_production" \/ key = "min_fidelity_development" ->
  Dict.get key update_gates = Some value ->
  exists loaded_gates : dict,
    Dict.get "quality_gates" (_load_config (Some user_config))
    = Some (JDict loaded_gates)
    /\ Dict.get key loaded_gates = Some value.
Proof.
  intros Hnd Hgroup Hnd' Hkey Hvalue. unfold _load_config.
  rewrite (deep_update_get_touched _ _ _ _ Hnd Hgroup).
  eexists. split; [reflexivity|].
  rewrite (deep_update_get_touched _ _ _ _ Hnd' Hvalue).
  destruct Hkey as [-> | ->]; now destruct value.
Qed.

(** C8, amended: the threshold applied in ["ci"] mode is the loaded
    development threshold times 0.8, for every integrator that reads its
    development threshold in the loaded configuration.  Without an
    override, and with any override that names neither
    [min_fidelity_production] nor [min_fidelity_development] (whatever else
    it holds), the two thresholds are loaded as 0.85 and 0.70, so the
    production threshold of an integrator that reads them is at least its
    development threshold.  A value the override gives for either key is
    the value loaded, whatever it is: no ordering is checked. *)
Theorem loaded_thresholds :
  (forall (user_config : option dict) (self : Integrator.t)
          (fidelity_metrics : gmap string float),
     let gates := Config.quality_gates (Integrator.config self) in
     let result := _evaluate_quality_gates self fidelity_metrics "ci" in
     loaded_number "quality_gates" "min_fidelity_development"
       (_load_config user_config)
     = Some (QualityGates.min_fidelity_development gates) ->
     QualityStatus.min_required_fidelity result
     = (QualityGates.min_fidelity_development gates * 0.8)%float
     /\ Gate.threshold (Gates.overall_fidelity
          (QualityStatus.individual_gates result))
        = (QualityGates.min_fidelity_development gates * 0.8)%float)
  /\ (forall user_config : option dict,
        leaves_fidelity_thresholds user_config ->
        loaded_number "quality_gates" "min_fidelity_production"
          (_load_config user_config) = Some 0.85%float
        /\ loaded_number "quality_gates" "min_fidelity_development"
             (_load_config user_config) = Some 0.70%float)
  /\ (forall (user_config : option dict) (self : Integrator.t),
        let gates := Config.quality_gates (Integrator.config self) in
        leaves_fidelity_thresholds user_config ->
        loaded_number "quality_gates" "min_fidelity_production"
          (_load_config user_config)
        = Some (QualityGates.min_fidelity_production gates) ->
        loaded_number "quality_gates" "min_fidelity_development"
          (_load_config user_config)
        = Some (QualityGates.min_fidelity_development gates) ->
        QualityGates.min_fidelity_production gates = 0.85%float
        /\ QualityGates.min_fidelity_development gates = 0.70%float
        /\ Py.ge (QualityGates.min_fidelity_production gates)
                 (QualityGates.min_fidelity_development gates) = true)
  /\ (forall (user_config update_gates : dict) (key : string) (value : json),
        NoDup (Dict.keys user_config) ->
        Dict.get "quality_gates" user_config = Some (JDict update_gates) ->
        NoDup (Dict.keys update_gates) ->
        key = "min_fidelity_production" \/ key = "min_fidelity_development" ->
        Dict.get key update_gates = Some value ->
        (exists loaded_gates : dict,
           Dict.get "quality_gates" (_load_config (Some user_config))
           = Some (JDict loaded_gates)
           /\ Dict.get key loaded_gates = Some value)
        /\ loaded_number "quality_gates" key (_load_config (Some user_config))
           = number_of_json value).
Proof.
  assert (Hdefaults : forall user_config : option dict,
            leaves_fidelity_thresholds user_config ->
            loaded_number "quality_gates" "min_fidelity_production"
              (_load_config user_config) = Some 0.85%float
            /\ loaded_number "quality_gates" "min_fidelity_development"
                 (_load_config user_config) = Some 0.70%float).
  { intros [user_config|]; [|split; reflexivity].
    intros (Hnd & Hproduction & Hdevelopment).
    rewrite !loaded_number_default by assumption. split; reflexivity. }
  split; [|split; [exact Hdefaults|split]].
  - intros user_config self fidelity_metrics gates result _.
    split; reflexivity.
  - intros user_config self gates Hleaves Hproduction Hdevelopment.
    destruct (Hdefaults user_config Hleaves) as [Hp Hd].
    rewrite Hp in Hproduction. rewrite Hd in Hdevelopment.
    injection Hproduction as <-. injection Hdevelopment as <-.
    split; [reflexivity|]. split; reflexivity.
  - intros user_config update_gates key value Hnd Hgroup Hnd' Hkey Hvalue.
    destruct (loaded_fidelity_threshold_given _ _ _ _ Hnd Hgroup Hnd' Hkey Hvalue)
      as (loaded_gates & Hloaded & Hgiven).
    split; [now exists loaded_gates|].
    unfold loaded_number. now rewrite Hloaded, Hgiven.
Qed.

(** An override that sets an integer persona threshold, a fractional
    relentless interval and an unknown group: the two fidelity thresholds
    are loaded with their defaults. *)
Lemma loaded_thresholds_witness :
  let user_config :=
    [ ("quality_gates", JDict [ ("min_persona_consistency", JInt 1) ]);
      ("training_triggers",
       JDict [ ("relentless_training_interval_hours", JFloat 0.5) ]);
      ("nanocog_evaluation", JDict [ ("samples", JInt 5) ]) ] in
  loaded_number "quality_gates" "min_fidelity_production"
    (_load_config (Some user_config)) = Some 0.85%float
  /\ loaded_number "quality_gates" "min_fidelity_development"
       (_load_config (Some user_config)) = Some 0.70%float.
Proof.
  intros user_config.
  apply (proj1 (proj2 loaded_thresholds) (Some user_config)).
  split; [|split; reflexivity].
  unfold user_config, Dict.keys. simpl.
  repeat (apply NoDup_cons; split;
          [rewrite ?elem_of_cons, elem_of_nil; intuition discriminate|]).
  apply NoDup_nil_2.
Defined.

(** C8 as stated fails on the ordering: an override of
    [min_fidelity_production] alone is loaded as given, below the default
    development threshold, and that is what an integrator reads. *)
Lemma loaded_thresholds_counterexample :
  let user_config :=
    [ ("quality_gates", JDict [ ("min_fidelity_production", JFloat 0.5) ]) ] in
  let self :=
    fresh (Config.mk (QualityGates.mk 0.5 0.70 0.80 0.75 0.10)
             (Config.training_triggers Config.default)
             (Config.feedback_integration Config.default)
             (Config.deployment Config.default)) in
  let gates := Config.quality_gates (Integrator.config self) in
  loaded_number "quality_gates" "min_fidelity_production"
    (_load_config (Some user_config))
  = Some (QualityGates.min_fidelity_production gates)
  /\ loaded_number "quality_gates" "min_fidelity_development"
       (_load_config (Some user_config))
     = Some (QualityGates.min_fidelity_development gates)
  /\ Py.ge (QualityGates.min_fidelity_production gates)
           (QualityGates.min_fidelity_development gates) = false.
Proof. split; [reflexivity|]. split; reflexivity. Qed.

(** ** The action flags *)

(** C9: whatever the gate result and the mode, exactly one of
    [deploy_model], [continue_training] and [retrain_required] is set;
    [retrain_required] comes with [manual_review_needed]; and the final
    rule for relentless mode leaves every flag but [schedule_next_cycle] as
    the branches set it, and never clears [schedule_next_cycle]. *)
Theorem next_actions_exactly_one (quality_status : QualityStatus.t)
    (recommendations : Recommendations.t) (training_mode : string) :
  let actions :=
    _determine_next_actions quality_status recommendations training_mode in
  let before := next_actions_branches quality_status training_mode in
  ((Actions.deploy_model actions = true
    /\ Actions.continue_training actions = false
    /\ Actions.retrain_required actions = false)
   \/ (Actions.deploy_model actions = false
       /\ Actions.continue_training actions = true
       /\ Actions.retrain_required actions = false)
   \/ (Actions.deploy_model actions = false
       /\ Actions.continue_training actions = false
       /\ Actions.retrain_required actions = true))
  /\ (Actions.retrain_required actions = true ->
      Actions.manual_review_needed actions = true)
  /\ (Actions.continue_training actions = Actions.continue_training before
      /\ Actions.deploy_model actions = Actions.deploy_model before
      /\ Actions.retrain_required actions = Actions.retrain_required before
      /\ Actions.enable_relentless_mode actions
         = Actions.enable_relentless_mode before
      /\ Actions.manual_review_needed actions
         = Actions.manual_review_needed before)
  /\ (Actions.schedule_next_cycle before = true ->
      Actions.schedule_next_cycle actions = true).
Proof.
  intros actions before. subst actions before.
  unfold _determine_next_actions, next_actions_branches.
  generalize (Py.lt (Gate.score (Gates.overall_fidelity
                (QualityStatus.individual_gates quality_status))) 0.5).
  intros below.
  destruct (QualityStatus.deployment_ready quality_status),
    (QualityStatus.status quality_status =? "passed"),
    (training_mode =? "relentless"), below;
    cbn; intuition congruence.
Qed.

(** ** The deployment group *)

Lemma evaluate_quality_gates_ext (self self' : Integrator.t)
    (fidelity_metrics : gmap string float) (training_mode : string) :
  Config.quality_gates (Integrator.config self')
  = Config.quality_gates (Integrator.config self) ->
  _evaluate_quality_gates self' fidelity_metrics training_mode
  = _evaluate_quality_gates self fidelity_metrics training_mode.
Proof. intros H. unfold _evaluate_quality_gates. now rewrite H. Qed.

Lemma generate_automation_triggers_ext (self self' : Integrator.t)
    (quality_status : QualityStatus.t) (training_mode : string) :
  Config.training_triggers (Integrator.config self')
  = Config.training_triggers (Integrator.config self) ->
  _generate_automation_triggers self' quality_status training_mode
  = _generate_automation_triggers self quality_status training_mode.
Proof. intros H. unfold _generate_automation_triggers. now rewrite H. Qed.

Lemma analyze_performance_trends_groups (self self' : Integrator.t)
    (current_metrics : gmap string float) :
  Config.quality_gates (Integrator.config self')
  = Config.quality_gates (Integrator.config self) ->
  Config.training_triggers (Integrator.config self')
  = Config.training_triggers (Integrator.config self) ->
  Integrator.improvement_history self' = Integrator.improvement_history self ->
  _analyze_performance_trends self' current_metrics
  = _analyze_performance_trends self current_metrics.
Proof.
  intros Hgates Htriggers Hhistory. unfold _analyze_performance_trends.
  now rewrite Hgates, Htriggers, Hhistory.
Qed.

(** C10: the analysis of two integrators whose configurations differ only
    in the [deployment] group (and that hold the same history) is the same
    for every input; so it is under the default configuration, where
    [enable_automated_deployment] is off and a run with every metric at
    0.9 still sets [deploy_model]. *)
Theorem deployment_group_never_read :
  (forall (self self' : Integrator.t) (now now' model_path : string)
          (evaluation_data : EvaluationData) (training_mode : string),
     Config.quality_gates (Integrator.config self')
     = Config.quality_gates (Integrator.config self) ->
     Config.training_triggers (Integrator.config self')
     = Config.training_triggers (Integrator.config self) ->
     Config.feedback_integration (Integrator.config self')
     = Config.feedback_integration (Integrator.config self) ->
     Integrator.improvement_history self'
     = Integrator.improvement_history self ->
     fst (analyze_training_results self' now now' model_path
            evaluation_data training_mode)
     = fst (analyze_training_results self now now' model_path
              evaluation_data training_mode))
  /\ (let self := fresh Config.default in
      let results :=
        fst (analyze_training_results self "t0" "t0" "model"
               {| fidelity_metrics := Some (uniform_metrics 0.9) |} "standard") in
      Deployment.enable_automated_deployment
        (Config.deployment (Integrator.config self)) = false
      /\ Actions.deploy_model (Analysis.next_actions results) = true).
Proof.
  split.
  - intros self self' now now' model_path evaluation_data training_mode
      Hgates Htriggers _ Hhistory.
    unfold analyze_training_results. cbn [fst].
    rewrite (evaluate_quality_gates_ext self self' _ _ Hgates).
    rewrite (analyze_performance_trends_groups self self' _
               Hgates Htriggers Hhistory).
    rewrite (generate_automation_triggers_ext self self' _ _ Htriggers).
    reflexivity.
  - vm_compute. split; reflexivity.
Qed.

(** The default configuration against the one with every deployment switch
    flipped. *)
Lemma deployment_group_never_read_witness :
  let self := fresh Config.default in
  let self' :=
    fresh (Config.with_deployment (Deployment.mk true false false)
             Config.default) in
  let report := {| fidelity_metrics := Some (uniform_metrics 0.9) |} in
  fst (analyze_training_results self' "t0" "t0" "model" report "standard")
  = fst (analyze_training_results self "t0" "t0" "model" report "standard").
Proof.
  intros self self' report.
  apply (proj1 deployment_group_never_read self self'); reflexivity.
Defined.

(** * Further properties *)

(** ** More of the order of IEEE comparisons *)

Module FloatFacts.

Lemma sf_le_trans (x y z : spec_float) :
  SFcompare x y = Some Lt \/ SFcompare x y = Some Eq ->
  SFcompare y z = Some Lt \/ SFcompare y z = Some Eq ->
  SFcompare x z = Some Lt \/ SFcompare x z = Some Eq.
Proof. FloatOrder.by_shape; FloatOrder.by_compare. Qed.

Lemma sf_lt_le_trans (x y z : spec_float) :
  SFcompare x y = Some Lt ->
  SFcompare y z = Some Lt \/ SFcompare y z = Some Eq ->
  SFcompare x z = Some Lt.
Proof. FloatOrder.by_shape; FloatOrder.by_compare. Qed.

Lemma sf_compare_nan_r (x : spec_float) : SFcompare x S754_nan = None.
Proof. now destruct x. Qed.

Lemma prim_nan : Prim2SF nan = S754_nan.
Proof. reflexivity. Qed.

End FloatFacts.

(** [a >= b] and [b >= c] give [a >= c]. *)
Lemma ge_trans (a b c : float) :
  Py.ge a b = true -> Py.ge b c = true -> Py.ge a c = true.
Proof.
  unfold Py.ge. rewrite !FloatOrder.leb_le. intros Hab Hbc.
  exact (FloatFacts.sf_le_trans _ _ _ Hbc Hab).
Qed.

(** [a < b] gives [b >= a]. *)
Lemma lt_ge (a b : float) : Py.lt a b = true -> Py.ge b a = true.
Proof.
  unfold Py.lt, Py.ge. rewrite FloatOrder.ltb_lt, FloatOrder.leb_le. auto.
Qed.

(** [x < a] and [b >= a] give [x < b]. *)
Lemma lt_ge_trans (x a b : float) :
  Py.lt x a = true -> Py.ge b a = true -> Py.lt x b = true.
Proof.
  unfold Py.lt, Py.ge. rewrite !FloatOrder.ltb_lt, FloatOrder.leb_le.
  apply FloatFacts.sf_lt_le_trans.
Qed.

(** Every comparison with a NaN is false. *)
Lemma nan_compares_false (x : float) :
  Py.ge nan x = false /\ Py.ge x nan = false
  /\ Py.gt nan x = false /\ Py.lt nan x = false.
Proof.
  unfold Py.ge, Py.gt, Py.lt.
  rewrite !leb_spec, !ltb_spec, FloatFacts.prim_nan.
  unfold SFleb, SFltb. rewrite FloatFacts.sf_compare_nan_r.
  repeat split.
Qed.

(** A difference with a NaN is a NaN. *)
Lemma nan_sub (x : float) : (nan - x)%float = nan.
Proof.
  apply Prim2SF_inj. now rewrite sub_spec, FloatFacts.prim_nan.
Qed.

(** ** What [_deep_update] does to a dictionary *)

Lemma dict_keys_set (key : string) (value : json) (d : dict) :
  Dict.keys (Dict.set key value d)
  = if decide (key ∈ Dict.keys d) then Dict.keys d
    else (Dict.keys d ++ [key])%list.
Proof.
  induction d as [|[k v] d IH]; cbn [Dict.set Dict.keys map fst].
  - rewrite decide_False by apply not_elem_of_nil. reflexivity.
  - destruct (String.eqb_spec key k) as [->|Hne]; cbn [map fst].
    + rewrite decide_True by apply list_elem_of_here. reflexivity.
    + fold (Dict.keys (Dict.set key value d)). fold (Dict.keys d).
      rewrite IH. destruct (decide (key ∈ Dict.keys d)) as [Hin|Hin].
      * rewrite decide_True by now apply list_elem_of_further. reflexivity.
      * rewrite decide_False; [reflexivity|].
        rewrite elem_of_cons. tauto.
Qed.

Lemma deep_update_step_keys (base_dict : dict) (key : string) (value : json) :
  Dict.keys (deep_update_step base_dict key value)
  = if decide (key ∈ Dict.keys base_dict) then Dict.keys base_dict
    else (Dict.keys base_dict ++ [key])%list.
Proof. apply dict_keys_set. Qed.

(** X1: read after merge.  For an update whose keys are pairwise distinct,
    a key the update does not mention reads as in the base; a key it
    mentions reads as the recursive merge when both sides hold a
    dictionary, and as the update's value in every other case. *)
Theorem deep_update_lookup (base_dict update_dict : dict) (key : string) :
  NoDup (Dict.keys update_dict) ->
  Dict.get key (_deep_update base_dict update_dict)
  = match Dict.get key update_dict with
    | None => Dict.get key base_dict
    | Some value =>
        Some match value, Dict.get key base_dict with
             | JDict update_sub, Some (JDict sub) =>
                 JDict (_deep_update sub update_sub)
             | _, _ => value
             end
    end.
Proof.
  intros Hnd. destruct (Dict.get key update_dict) as [value|] eqn:Hkey.
  - exact (deep_update_get_touched _ _ _ _ Hnd Hkey).
  - exact (deep_update_get_untouched _ _ _ Hkey).
Qed.

(** An update that replaces a number, adds a key to a group and adds a
    group: the three readings. *)
Lemma deep_update_lookup_witness :
  let base_dict :=
    [ ("a", JInt 1); ("g", JDict [ ("x", JInt 2) ]) ] in
  let update_dict :=
    [ ("g", JDict [ ("y", JInt 3) ]); ("a", JDict []); ("h", JNull) ] in
  Dict.get "g" (_deep_update base_dict update_dict)
  = Some (JDict [ ("x", JInt 2); ("y", JInt 3) ])
  /\ Dict.get "a" (_deep_update base_dict update_dict) = Some (JDict [])
  /\ Dict.get "h" (_deep_update base_dict update_dict) = Some JNull.
Proof.
  intros base_dict update_dict.
  assert (Hnd : NoDup (Dict.keys update_dict)).
  { unfold update_dict, Dict.keys. simpl.
    repeat (apply NoDup_cons; split;
            [rewrite ?elem_of_cons, elem_of_nil; intuition discriminate|]).
    apply NoDup_nil_2. }
  split; [|split].
  - rewrite (deep_update_lookup base_dict update_dict "g" Hnd). reflexivity.
  - rewrite (deep_update_lookup base_dict update_dict "a" Hnd). reflexivity.
  - rewrite (deep_update_lookup base_dict update_dict "h" Hnd). reflexivity.
Defined.

(** X2: the keys after a merge.  The keys of the base stay, in their
    places; the keys added behind them are keys of the update that the base
    did not have; every key of the update is present; and keys that were
    pairwise distinct still are. *)
Theorem deep_update_keys (update_dict base_dict : dict) :
  exists added : list string,
    Dict.keys (_deep_update base_dict update_dict)
    = (Dict.keys base_dict ++ added)%list
    /\ (forall key : string,
          key ∈ added ->
          key ∈ Dict.keys update_dict /\ key ∉ Dict.keys base_dict)
    /\ (forall key : string,
          key ∈ Dict.keys update_dict ->
          key ∈ Dict.keys (_deep_update base_dict update_dict))
    /\ (NoDup (Dict.keys base_dict) ->
        NoDup (Dict.keys (_deep_update base_dict update_dict))).
Proof.
  revert base_dict.
  induction update_dict as [|[k v] items IH]; intros base_dict.
  - exists []. rewrite deep_update_nil, app_nil_r.
    split; [reflexivity|]. split; [|split]; try easy.
  - rewrite deep_update_cons.
    destruct (IH (deep_update_step base_dict k v))
      as (added & Hkeys & Hadded & Hpresent & Hnodup).
    rewrite deep_update_step_keys in Hkeys, Hadded, Hnodup.
    destruct (decide (k ∈ Dict.keys base_dict)) as [Hin|Hin].
    + exists added. split; [exact Hkeys|]. split; [|split].
      * intros key Hkey. destruct (Hadded key Hkey) as [Hitems Hbase].
        split; [|exact Hbase]. simpl. now apply list_elem_of_further.
      * intros key Hkey. simpl in Hkey. apply elem_of_cons in Hkey as [->|Hkey].
        -- rewrite Hkeys. apply elem_of_app. now left.
        -- now apply Hpresent.
      * exact Hnodup.
    + exists (k :: added). split; [|split; [|split]].
      * rewrite Hkeys, <- app_assoc. reflexivity.
      * intros key Hkey. simpl. apply elem_of_cons in Hkey as [->|Hkey].
        -- split; [apply list_elem_of_here|exact Hin].
        -- destruct (Hadded key Hkey) as [Hitems Hbase]. split.
           ++ now apply list_elem_of_further.
           ++ intros Hb. apply Hbase. apply elem_of_app. now left.
      * intros key Hkey. simpl in Hkey. apply elem_of_cons in Hkey as [->|Hkey].
        -- rewrite Hkeys. apply elem_of_app. left. apply elem_of_app.
           right. apply list_elem_of_here.
        -- now apply Hpresent.
      * intros Hbase. apply Hnodup. apply NoDup_app. split; [exact Hbase|].
        split; [|apply NoDup_singleton].
        intros key Hkey Hk. apply list_elem_of_singleton in Hk as ->.
        contradiction.
Qed.

(** ** What [_load_config] does to the defaults *)

Lemma load_config_group (user_config : dict) (group : string) :
  NoDup (Dict.keys user_config) ->
  Dict.get group (_load_config (Some user_config))
  = match Dict.get group user_config with
    | None => Dict.get group default_config
    | Some value => Some (merged_value (Dict.get group default_config) value)
    end.
Proof.
  intros Hnd. unfold _load_config.
  destruct (Dict.get group user_config) as [value|] eqn:Hgroup.
  - exact (deep_update_get_touched _ _ _ _ Hnd Hgroup).
  - exact (deep_update_get_untouched _ _ _ Hgroup).
Qed.

(** X4: the merge is per key, in every group.  A key of a default group
    that the override does not name keeps its default, also when the
    override sets other keys of the same group; a key the override sets in
    a group is loaded with the override's value (merged with the default
    when both are dictionaries). *)
Theorem load_config_per_key (user_config : dict) (group key : string)
    (defaults : dict) :
  NoDup (Dict.keys user_config) ->
  Dict.get group default_config = Some (JDict defaults) ->
  (overrides group key user_config = false ->
   exists loaded : dict,
     Dict.get group (_load_config (Some user_config)) = Some (JDict loaded)
     /\ Dict.get key loaded = Dict.get key defaults)
  /\ (forall (update_group : dict) (value : json),
        Dict.get group user_config = Some (JDict update_group) ->
        NoDup (Dict.keys update_group) ->
        Dict.get key update_group = Some value ->
        exists loaded : dict,
          Dict.get group (_load_config (Some user_config)) = Some (JDict loaded)
          /\ Dict.get key loaded
             = Some (merged_value (Dict.get key defaults) value)).
Proof.
  intros Hnd Hdefaults. rewrite (load_config_group _ _ Hnd), Hdefaults. split.
  - unfold overrides. intros Hkey.
    destruct (Dict.get group user_config) as [value|].
    + destruct value as [| | | | | |update_group]; try discriminate.
      destruct (Dict.get key update_group) eqn:Hupdate; [discriminate|].
      eexists. split; [reflexivity|].
      now apply deep_update_get_untouched.
    + eexists. split; reflexivity.
  - intros update_group value -> Hnd' Hvalue.
    eexists. split; [reflexivity|].
    now apply deep_update_get_touched.
Qed.

(** An override of the production threshold alone: the development
    threshold keeps its default and the production threshold is the
    override's. *)
Lemma load_config_per_key_witness :
  let user_config :=
    [ ("quality_gates", JDict [ ("min_fidelity_production", JFloat 0.9) ]) ] in
  (exists loaded : dict,
     Dict.get "quality_gates" (_load_config (Some user_config))
     = Some (JDict loaded)
     /\ Dict.get "min_fidelity_development" loaded = Some (JFloat 0.70))
  /\ (exists loaded : dict,
        Dict.get "quality_gates" (_load_config (Some user_config))
        = Some (JDict loaded)
        /\ Dict.get "min_fidelity_production" loaded = Some (JFloat 0.9)).
Proof.
  intros user_config.
  assert (Hnd : NoDup (Dict.keys user_config)) by apply NoDup_singleton.
  split.
  - exact (proj1 (load_config_per_key user_config "quality_gates"
                    "min_fidelity_development" _ Hnd eq_refl) eq_refl).
  - exact (proj2 (load_config_per_key user_config "quality_gates"
                    "min_fidelity_production" _ Hnd eq_refl)
             _ _ eq_refl (NoDup_singleton _) eq_refl).
Defined.

(** ** What the analysis reads of the metrics *)

(** X5: the analysis reads the metrics through three keys only, each with
    0.0 for a missing key: two reports whose metrics agree on
    [overall_fidelity], [identity_recognition] and [persona_consistency]
    get the same analysis; the four other dimensions, and the difference
    between a missing key, a missing ["fidelity_metrics"] and a 0.0, have no
    effect. *)
Theorem analysis_reads_three_metrics (self : Integrator.t)
    (now now' model_path : string)
    (evaluation_data evaluation_data' : EvaluationData)
    (training_mode : string) :
  (forall key : string,
     key ∈ gate_keys ->
     get_metric (default ∅ (fidelity_metrics evaluation_data)) key
     = get_metric (default ∅ (fidelity_metrics evaluation_data')) key) ->
  fst (analyze_training_results self now now' model_path
         evaluation_data training_mode)
  = fst (analyze_training_results self now now' model_path
           evaluation_data' training_mode).
Proof.
  intros Hsame.
  assert (Hoverall := Hsame "overall_fidelity" ltac:(unfold gate_keys; set_solver)).
  assert (Hidentity := Hsame "identity_recognition" ltac:(unfold gate_keys; set_solver)).
  assert (Hpersona := Hsame "persona_consistency" ltac:(unfold gate_keys; set_solver)).
  unfold analyze_training_results, _evaluate_quality_gates,
    _analyze_performance_trends, _generate_improvement_recommendations.
  cbn [fst]. rewrite Hoverall, Hidentity, Hpersona. reflexivity.
Qed.

(** A report with the three scores and four other dimensions against the
    report with the three scores alone. *)
Lemma analysis_reads_three_metrics_witness :
  let three : gmap string float :=
    list_to_map [ ("overall_fidelity", 0.9%float);
                  ("identity_recognition", 0.9%float);
                  ("persona_consistency", 0.9%float) ] in
  fst (analyze_training_results (fresh Config.default) "t0" "t0" "model"
         {| fidelity_metrics := Some (uniform_metrics 0.9) |} "standard")
  = fst (analyze_training_results (fresh Config.default) "t0" "t0" "model"
           {| fidelity_metrics := Some three |} "standard").
Proof.
  intros three. apply analysis_reads_three_metrics.
  intros key Hkey. unfold gate_keys in Hkey.
  repeat (apply elem_of_cons in Hkey as [->|Hkey]; [reflexivity|]).
  now apply elem_of_nil in Hkey.
Defined.

(** ** Order properties of the quality gates *)

Lemma overall_passed_iff (self : Integrator.t)
    (fidelity_metrics : gmap string float) (training_mode : string) :
  let gates := Config.quality_gates (Integrator.config self) in
  let result := _evaluate_quality_gates self fidelity_metrics training_mode in
  QualityStatus.overall_passed result = true <->
  Py.ge (get_metric fidelity_metrics "overall_fidelity")
        (QualityStatus.min_required_fidelity result) = true
  /\ Py.ge (get_metric fidelity_metrics "identity_recognition")
           (QualityGates.min_identity_recognition gates) = true
  /\ Py.ge (get_metric fidelity_metrics "persona_consistency")
           (QualityGates.min_persona_consistency gates) = true.
Proof. apply all_passed_iff. Qed.

Lemma deployment_ready_eq (self : Integrator.t)
    (fidelity_metrics : gmap string float) (training_mode : string) :
  let result := _evaluate_quality_gates self fidelity_metrics training_mode in
  QualityStatus.deployment_ready result
  = QualityStatus.overall_passed result
    && Py.ge (get_metric fidelity_metrics "overall_fidelity")
         (QualityGates.min_fidelity_production
            (Config.quality_gates (Integrator.config self))).
Proof. reflexivity. Qed.

Lemma min_required_fidelity_mode (self : Integrator.t)
    (fidelity_metrics fidelity_metrics' : gmap string float)
    (training_mode : string) :
  QualityStatus.min_required_fidelity
    (_evaluate_quality_gates self fidelity_metrics training_mode)
  = QualityStatus.min_required_fidelity
      (_evaluate_quality_gates self fidelity_metrics' training_mode).
Proof. reflexivity. Qed.

(** X6: the gates are monotone in the scores.  If a run passes, a run in
    the same mode whose overall fidelity, identity recognition and persona
    consistency are each at least as high passes too, and if the first is
    deployment ready so is the second. *)
Theorem quality_gates_monotone (self : Integrator.t)
    (fidelity_metrics fidelity_metrics' : gmap string float)
    (training_mode : string) :
  (forall key : string,
     key ∈ gate_keys ->
     Py.ge (get_metric fidelity_metrics' key)
           (get_metric fidelity_metrics key) = true) ->
  let result := _evaluate_quality_gates self fidelity_metrics training_mode in
  let result' := _evaluate_quality_gates self fidelity_metrics' training_mode in
  (QualityStatus.overall_passed result = true ->
   QualityStatus.overall_passed result' = true)
  /\ (QualityStatus.deployment_ready result = true ->
      QualityStatus.deployment_ready result' = true).
Proof.
  intros Hbetter result result'.
  assert (Hoverall := Hbetter "overall_fidelity" ltac:(unfold gate_keys; set_solver)).
  assert (Hidentity := Hbetter "identity_recognition" ltac:(unfold gate_keys; set_solver)).
  assert (Hpersona := Hbetter "persona_consistency" ltac:(unfold gate_keys; set_solver)).
  assert (Hpassed : QualityStatus.overall_passed result = true ->
                    QualityStatus.overall_passed result' = true).
  { subst result result'. rewrite !overall_passed_iff.
    rewrite (min_required_fidelity_mode self fidelity_metrics' fidelity_metrics).
    intros (Ho & Hi & Hp). repeat split; eapply ge_trans; eassumption. }
  split; [exact Hpassed|].
  subst result result'. rewrite !deployment_ready_eq, !andb_true_iff.
  intros [Hp Hprod]. split; [now apply Hpassed|].
  eapply ge_trans; eassumption.
Qed.

(** From every score at 0.9 to every score at 0.95, in relentless mode. *)
Lemma quality_gates_monotone_witness :
  QualityStatus.deployment_ready
    (_evaluate_quality_gates (fresh Config.default) (uniform_metrics 0.95)
       "relentless") = true.
Proof.
  apply (quality_gates_monotone (fresh Config.default)
           (uniform_metrics 0.9) (uniform_metrics 0.95) "relentless").
  - intros key Hkey. unfold gate_keys in Hkey.
    repeat (apply elem_of_cons in Hkey as [->|Hkey]; [reflexivity|]).
    now apply elem_of_nil in Hkey.
  - reflexivity.
Defined.

(** The three thresholds a mode can select. *)
Lemma gate_thresholds_by_mode_aux (self : Integrator.t)
    (fidelity_metrics : gmap string float) (training_mode : string) :
  let gates := Config.quality_gates (Integrator.config self) in
  let min_fidelity :=
    QualityStatus.min_required_fidelity
      (_evaluate_quality_gates self fidelity_metrics training_mode) in
  min_fidelity = QualityGates.min_fidelity_production gates
  \/ min_fidelity = (QualityGates.min_fidelity_development gates * 0.8)%float
  \/ min_fidelity = QualityGates.min_fidelity_development gates.
Proof.
  unfold _evaluate_quality_gates. cbn [QualityStatus.min_required_fidelity].
  destruct (training_mode =? "relentless"); [now left|].
  destruct (training_mode =? "ci"); [right; now left|right; now right].
Qed.

(** X7: the modes are ordered by strictness when the thresholds are.  Under
    a configuration with [min_fidelity_production >=
    min_fidelity_development >= min_fidelity_development * 0.8] (the
    default has 0.85, 0.70 and 0.56), a run that passes the gates in
    relentless mode passes them in every mode, and a run that passes them
    in any mode passes them in ci mode. *)
Theorem modes_ordered_by_strictness (self : Integrator.t)
    (fidelity_metrics : gmap string float) :
  let gates := Config.quality_gates (Integrator.config self) in
  let passed (training_mode : string) :=
    QualityStatus.overall_passed
      (_evaluate_quality_gates self fidelity_metrics training_mode) in
  Py.ge (QualityGates.min_fidelity_production gates)
        (QualityGates.min_fidelity_development gates) = true ->
  Py.ge (QualityGates.min_fidelity_development gates)
        (QualityGates.min_fidelity_development gates * 0.8)%float = true ->
  (forall training_mode : string,
     passed "relentless" = true -> passed training_mode = true)
  /\ (forall training_mode : string,
        passed training_mode = true -> passed "ci" = true).
Proof.
  intros gates passed Hproduction Hci. subst passed. cbn beta.
  split.
  - intros training_mode. rewrite !overall_passed_iff.
    intros (Ho & Hi & Hp). split; [|split; assumption].
    destruct (gate_thresholds_by_mode_aux self fidelity_metrics training_mode)
      as [-> | [-> | ->]]; fold gates.
    + exact Ho.
    + eapply ge_trans; [exact Ho|]. eapply ge_trans; eassumption.
    + eapply ge_trans; eassumption.
  - intros training_mode. rewrite !overall_passed_iff.
    intros (Ho & Hi & Hp). split; [|split; assumption].
    change (QualityStatus.min_required_fidelity
              (_evaluate_quality_gates self fidelity_metrics "ci"))
      with (QualityGates.min_fidelity_development gates * 0.8)%float.
    destruct (gate_thresholds_by_mode_aux self fidelity_metrics training_mode)
      as [Hmin | [Hmin | Hmin]]; fold gates in Hmin; rewrite Hmin in Ho.
    + eapply ge_trans; [exact Ho|]. eapply ge_trans; eassumption.
    + exact Ho.
    + eapply ge_trans; eassumption.
Qed.

(** The default configuration and a run at 0.9 throughout: it passes in
    relentless mode, hence in ["standard"] mode. *)
Lemma modes_ordered_by_strictness_witness :
  QualityStatus.overall_passed
    (_evaluate_quality_gates (fresh Config.default) (uniform_metrics 0.9)
       "standard") = true.
Proof.
  apply (proj1 (modes_ordered_by_strictness (fresh Config.default)
                  (uniform_metrics 0.9) eq_refl eq_refl) "standard").
  reflexivity.
Defined.

(** X8: in relentless mode passing the gates and being deployment ready
    are the same thing, so a relentless run that passes is planned for
    deployment and nothing else: no continued training, no switch of mode,
    no next cycle.  And a run that is deployment ready in any mode is
    deployment ready in relentless mode. *)
Theorem relentless_passed_is_ready (self : Integrator.t)
    (fidelity_metrics : gmap string float)
    (recommendations : Recommendations.t) :
  let result := _evaluate_quality_gates self fidelity_metrics "relentless" in
  QualityStatus.deployment_ready result = QualityStatus.overall_passed result
  /\ (QualityStatus.overall_passed result = true ->
      _determine_next_actions result recommendations "relentless"
      = Actions.mk false true false false false false)
  /\ (forall training_mode : string,
        QualityStatus.deployment_ready
          (_evaluate_quality_gates self fidelity_metrics training_mode) = true ->
        QualityStatus.deployment_ready result = true).
Proof.
  intros result.
  assert (Hready : QualityStatus.deployment_ready result
                   = QualityStatus.overall_passed result).
  { subst result. rewrite deployment_ready_eq.
    destruct (QualityStatus.overall_passed _) eqn:Hpassed; [|reflexivity].
    apply overall_passed_iff in Hpassed as (Ho & _). exact Ho. }
  split; [exact Hready|]. split.
  - intros Hpassed. unfold _determine_next_actions, next_actions_branches.
    rewrite Hready, Hpassed. reflexivity.
  - intros training_mode. rewrite Hready. subst result.
    rewrite !deployment_ready_eq, andb_true_iff, !overall_passed_iff.
    intros [(_ & Hi & Hp) Hprod]. auto.
Qed.

(** ** A NaN score *)

(** X9: an overall fidelity that is a NaN (a report may hold one) fails
    the overall gate in every mode under every configuration and is never
    deployment ready; it is planned as [continue_training] with a next
    cycle, never as a retrain with manual review; it gets no hyperparameter
    adjustment; and against any history its trend is stable/neutral. *)
Theorem nan_overall_fidelity (self : Integrator.t)
    (fidelity_metrics : gmap string float) (training_mode : string)
    (recommendations : Recommendations.t) :
  get_metric fidelity_metrics "overall_fidelity" = nan ->
  let result := _evaluate_quality_gates self fidelity_metrics training_mode in
  Gate.passed (Gates.overall_fidelity (QualityStatus.individual_gates result))
  = false
  /\ QualityStatus.status result = "failed"
  /\ QualityStatus.deployment_ready result = false
  /\ _determine_next_actions result recommendations training_mode
     = Actions.mk true false false false true false
  /\ Triggers.hyperparameter_adjustments
       (_generate_automation_triggers self result training_mode) = ∅
  /\ (forall (earlier : list History.t) (previous : History.t),
        Integrator.improvement_history self = (earlier ++ [previous])%list ->
        Trend.trend (_analyze_performance_trends self fidelity_metrics)
        = "stable"
        /\ Trend.status (_analyze_performance_trends self fidelity_metrics)
           = "neutral").
Proof.
  intros Hnan result.
  assert (Hgate : Gate.passed (Gates.overall_fidelity
                    (QualityStatus.individual_gates result)) = false).
  { subst result. unfold _evaluate_quality_gates.
    cbn [QualityStatus.individual_gates Gates.overall_fidelity Gate.passed].
    rewrite Hnan. apply nan_compares_false. }
  assert (Hpassed : QualityStatus.overall_passed result = false).
  { apply not_true_is_false. intros Hp.
    apply (proj1 (all_passed_iff _)) in Hp as (Ho & _).
    exact (eq_true_false_abs _ Ho Hgate). }
  assert (Hstatus : QualityStatus.status result = "failed").
  { change (QualityStatus.status result)
      with (if QualityStatus.overall_passed result then "passed" else "failed").
    now rewrite Hpassed. }
  assert (Hready : QualityStatus.deployment_ready result = false).
  { subst result. rewrite deployment_ready_eq.
    fold (_evaluate_quality_gates self fidelity_metrics training_mode).
    now rewrite Hpassed. }
  assert (Hscore : Gate.score (Gates.overall_fidelity
                     (QualityStatus.individual_gates result)) = nan).
  { exact Hnan. }
  split; [exact Hgate|]. split; [exact Hstatus|]. split; [exact Hready|].
  split; [|split].
  - unfold _determine_next_actions.
    rewrite (next_actions_branches_failed _ _ Hstatus Hready), Hready, Hscore.
    rewrite (proj2 (proj2 (proj2 (nan_compares_false 0.5)))).
    now destruct (training_mode =? "relentless").
  - unfold _generate_automation_triggers. rewrite Hscore.
    rewrite (proj2 (proj2 (proj2 (nan_compares_false 0.7)))).
    destruct (negb _ && _), (training_mode =? "relentless"); reflexivity.
  - intros earlier previous Hhistory.
    rewrite (analyze_performance_trends_snoc _ _ _ _ Hhistory).
    cbn zeta. rewrite Hnan, nan_sub.
    destruct (nan_compares_false
                (TrainingTriggers.performance_improvement_threshold
                   (Config.training_triggers (Integrator.config self))))
      as (_ & _ & -> & _).
    destruct (nan_compares_false
                (- QualityGates.max_performance_decline
                     (Config.quality_gates (Integrator.config self)))%float)
      as (_ & _ & _ & ->).
    split; reflexivity.
Qed.

(** A report whose overall fidelity is a NaN beside two good scores. *)
Lemma nan_overall_fidelity_witness :
  let metrics : gmap string float :=
    list_to_map [ ("overall_fidelity", nan);
                  ("identity_recognition", 0.9%float);
                  ("persona_consistency", 0.9%float) ] in
  let result := _evaluate_quality_gates (fresh Config.default) metrics "ci" in
  QualityStatus.status result = "failed"
  /\ _determine_next_actions result
       (_generate_improvement_recommendations metrics "ci" result) "ci"
     = Actions.mk true false false false true false.
Proof.
  intros metrics result.
  destruct (nan_overall_fidelity (fresh Config.default) metrics "ci"
              (_generate_improvement_recommendations metrics "ci" result)
              eq_refl) as (_ & Hstatus & _ & Hactions & _).
  split; [exact Hstatus|exact Hactions].
Defined.

(** ** Recommendations *)

(** X10: one immediate recommendation and one hyperparameter adjustment
    per failed gate, in the order overall fidelity, identity recognition,
    persona consistency, whatever the metrics and the mode; none exactly
    when the three gates passed. *)
Theorem recommendations_per_failed_gate
    (fidelity_metrics : gmap string float) (training_mode : string)
    (quality_status : QualityStatus.t) :
  let gates := QualityStatus.individual_gates quality_status in
  let recommendations :=
    _generate_improvement_recommendations fidelity_metrics training_mode
      quality_status in
  let unless_passed (gate : Gate.t) (text : string) : list string :=
    if Gate.passed gate then [] else [text] in
  Recommendations.immediate recommendations
  = (unless_passed (Gates.overall_fidelity gates)
       "Review overall training approach"
     ++ unless_passed (Gates.identity_recognition gates)
          "Increase Echo Self identity training examples"
     ++ unless_passed (Gates.persona_consistency gates)
          "Balance training across all persona dimensions")%list
  /\ Recommendations.hyperparameter_adjustments recommendations
     = (unless_passed (Gates.overall_fidelity gates) "extend_training_duration"
        ++ unless_passed (Gates.identity_recognition gates)
             "increase_identity_weight"
        ++ unless_passed (Gates.persona_consistency gates)
             "balance_persona_weights")%list
  /\ length (Recommendations.immediate recommendations)
     = length (List.filter (fun gate => negb (Gate.passed gate))
                 (Gates.values gates))
  /\ (Recommendations.immediate recommendations = [] <->
      Py.all (map Gate.passed (Gates.values gates)) = true).
Proof.
  intros gates recommendations unless_passed.
  subst recommendations unless_passed.
  unfold _generate_improvement_recommendations. fold gates.
  destruct gates as [[po so to] [pi si ti] [pp sp tp]].
  cbn [Gates.items Gates.values Gates.overall_fidelity
       Gates.identity_recognition Gates.persona_consistency Gate.passed
       map snd].
  generalize (Py.lt (get_metric fidelity_metrics "overall_fidelity") 0.6),
    (Py.lt (get_metric fidelity_metrics "overall_fidelity") 0.8),
    (Py.lt (get_metric fidelity_metrics "overall_fidelity") 0.85),
    (Py.gt (get_metric fidelity_metrics "overall_fidelity") 0.75).
  intros b1 b2 b3 b4.
  destruct po, pi, pp, b1, b2, b3, b4, (training_mode =? "relentless");
    cbn; (split; [reflexivity|]); (split; [reflexivity|]);
    (split; [reflexivity|]); intuition congruence.
Qed.

(** X11: how the fidelity bands and the mode rule combine below 0.6.  A
    run whose overall fidelity is strictly below 0.6 gets the three items
    of the lowest band, followed in relentless mode by the advice to
    increase the relentless frequency and by nothing in any other mode: it
    is never advised to consider relentless mode.  In every case the
    long-term list holds the monitoring note in relentless mode and is
    empty otherwise, and the advice to consider relentless mode comes up
    exactly outside relentless mode with an overall fidelity above
    0.75. *)
Theorem recommendations_next_cycle
    (fidelity_metrics : gmap string float) (training_mode : string)
    (quality_status : QualityStatus.t) :
  let overall_fidelity := get_metric fidelity_metrics "overall_fidelity" in
  let recommendations :=
    _generate_improvement_recommendations fidelity_metrics training_mode
      quality_status in
  (Py.lt overall_fidelity 0.6 = true ->
   Recommendations.next_training_cycle recommendations
   = ([ "Increase training iterations significantly";
        "Enhance data quality and diversity";
        "Review model architecture parameters" ]
      ++ if training_mode =? "relentless"
         then [ "Increase relentless training frequency" ] else [])%list)
  /\ Recommendations.long_term recommendations
     = (if training_mode =? "relentless"
        then [ "Monitor continuous improvement trends" ] else [])
  /\ ("Consider enabling relentless training mode"
        ∈ Recommendations.next_training_cycle recommendations <->
      training_mode <> "relentless" /\ Py.gt overall_fidelity 0.75 = true).
Proof.
  intros overall_fidelity recommendations. subst recommendations.
  unfold _generate_improvement_recommendations. fold overall_fidelity.
  set (start := fold_left recommend_for_failed_gate _ _).
  assert (Hstart : Recommendations.next_training_cycle start = []
                   /\ Recommendations.long_term start = []).
  { subst start.
    destruct (QualityStatus.individual_gates quality_status)
      as [[[] ? ?] [[] ? ?] [[] ? ?]]; split; reflexivity. }
  destruct Hstart as [Hcycle Hlong]. clearbody start.
  split; [|split].
  - intros Hlow.
    rewrite Hlow, (lt_ge_trans _ _ 0.85 Hlow eq_refl),
      (lt_ge_not_gt _ _ 0.75 Hlow eq_refl).
    destruct (training_mode =? "relentless"); cbn; now rewrite Hcycle.
  - destruct (Py.lt overall_fidelity 0.6), (Py.lt overall_fidelity 0.8),
      (Py.lt overall_fidelity 0.85), (Py.gt overall_fidelity 0.75),
      (training_mode =? "relentless"); cbn; now rewrite Hlong.
  - destruct (String.eqb_spec training_mode "relentless") as [Hmode|Hmode];
      destruct (Py.lt overall_fidelity 0.6), (Py.lt overall_fidelity 0.8),
        (Py.lt overall_fidelity 0.85), (Py.gt overall_fidelity 0.75);
      cbn; rewrite Hcycle; cbn;
      rewrite ?elem_of_cons, ?elem_of_nil;
      intuition (discriminate || congruence).
Qed.

(** A run at 0.5 in relentless mode. *)
Lemma recommendations_next_cycle_witness :
  let metrics := uniform_metrics 0.5 in
  let quality_status :=
    _evaluate_quality_gates (fresh Config.default) metrics "relentless" in
  Recommendations.next_training_cycle
    (_generate_improvement_recommendations metrics "relentless" quality_status)
  = [ "Increase training iterations significantly";
      "Enhance data quality and diversity";
      "Review model architecture parameters";
      "Increase relentless training frequency" ].
Proof.
  intros metrics quality_status.
  exact (proj1 (recommendations_next_cycle metrics "relentless" quality_status)
           eq_refl).
Defined.

(** ** The action flags, flag by flag *)

(** X12: for every gate result and mode, [deploy_model] is the gate
    result's [deployment_ready]; [enable_relentless_mode] is set exactly
    for a deployment-ready result outside relentless mode;
    [manual_review_needed] equals [retrain_required]; and no next cycle is
    scheduled in exactly two cases: a deployment-ready result in relentless
    mode, and a retrain verdict outside relentless mode. *)
Theorem next_actions_flags (quality_status : QualityStatus.t)
    (recommendations : Recommendations.t) (training_mode : string) :
  let actions :=
    _determine_next_actions quality_status recommendations training_mode in
  Actions.deploy_model actions = QualityStatus.deployment_ready quality_status
  /\ Actions.enable_relentless_mode actions
     = QualityStatus.deployment_ready quality_status
       && negb (training_mode =? "relentless")
  /\ Actions.manual_review_needed actions = Actions.retrain_required actions
  /\ (Actions.schedule_next_cycle actions = false <->
      (QualityStatus.deployment_ready quality_status = true
       /\ training_mode = "relentless")
      \/ (Actions.retrain_required actions = true
          /\ training_mode <> "relentless")).
Proof.
  intros actions. subst actions.
  unfold _determine_next_actions, next_actions_branches.
  generalize (Py.lt (Gate.score (Gates.overall_fidelity
                (QualityStatus.individual_gates quality_status))) 0.5).
  intros below.
  destruct (String.eqb_spec training_mode "relentless") as [Hmode|Hmode];
    destruct (QualityStatus.deployment_ready quality_status),
      (QualityStatus.status quality_status =? "passed"), below;
    cbn; intuition congruence.
Qed.

(** ** Triggers against the verdict *)

Lemma next_actions_deploy_model (quality_status : QualityStatus.t)
    (recommendations : Recommendations.t) (training_mode : string) :
  Actions.deploy_model
    (_determine_next_actions quality_status recommendations training_mode)
  = QualityStatus.deployment_ready quality_status.
Proof.
  unfold _determine_next_actions, next_actions_branches.
  generalize (Py.lt (Gate.score (Gates.overall_fidelity
                (QualityStatus.individual_gates quality_status))) 0.5).
  intros below.
  destruct (QualityStatus.deployment_ready quality_status),
    (QualityStatus.status quality_status =? "passed"), below,
    (training_mode =? "relentless"); reflexivity.
Qed.

(** X13: within one analysis, a run that is planned for deployment never
    asks for a notification and never gets the one-hour retry: training is
    triggered for it only by relentless mode, with the relentless interval
    as delay, and the delay is 0 otherwise. *)
Theorem deployed_run_triggers (self : Integrator.t)
    (now now' model_path : string) (evaluation_data : EvaluationData)
    (training_mode : string) :
  let results :=
    fst (analyze_training_results self now now' model_path evaluation_data
           training_mode) in
  let triggers := Analysis.automation_triggers results in
  Actions.deploy_model (Analysis.next_actions results) = true ->
  Triggers.notification_required triggers = false
  /\ Triggers.trigger_next_training triggers = (training_mode =? "relentless")
  /\ Triggers.training_delay_hours triggers
     = (if training_mode =? "relentless"
        then TrainingTriggers.relentless_training_interval_hours
               (Config.training_triggers (Integrator.config self))
        else 0%Z).
Proof.
  intros results triggers Hdeploy.
  set (metrics := default ∅ (fidelity_metrics evaluation_data)).
  set (quality_status := _evaluate_quality_gates self metrics training_mode).
  assert (Hready : QualityStatus.deployment_ready quality_status = true).
  { rewrite <- Hdeploy. symmetry.
    exact (next_actions_deploy_model quality_status
             (_generate_improvement_recommendations metrics
                training_mode quality_status) training_mode). }
  assert (Hpassed : QualityStatus.overall_passed quality_status = true).
  { subst quality_status. rewrite deployment_ready_eq in Hready.
    now apply andb_true_iff in Hready as [Hp _]. }
  destruct (automation_triggers_schedule self quality_status training_mode)
    as (Htrigger & Hdelay & Hnotify).
  change (_generate_automation_triggers self quality_status training_mode)
    with triggers in Htrigger, Hdelay, Hnotify.
  rewrite Hpassed in Htrigger, Hdelay, Hnotify. cbn in Htrigger, Hdelay, Hnotify.
  rewrite orb_false_r in Htrigger.
  split; [exact Hnotify|]. split; [exact Htrigger|exact Hdelay].
Qed.

(** Scenario B: every metric at 0.9 in relentless mode under the default
    configuration. *)
Lemma deployed_run_triggers_witness :
  let results :=
    fst (analyze_training_results (fresh Config.default) "t0" "t0" "model"
           {| fidelity_metrics := Some (uniform_metrics 0.9) |} "relentless") in
  Triggers.notification_required (Analysis.automation_triggers results) = false
  /\ Triggers.trigger_next_training (Analysis.automation_triggers results) = true
  /\ Triggers.training_delay_hours (Analysis.automation_triggers results) = 4%Z.
Proof.
  exact (deployed_run_triggers (fresh Config.default) "t0" "t0" "model"
           {| fidelity_metrics := Some (uniform_metrics 0.9) |} "relentless"
           eq_refl).
Defined.

(** X14: the triggers are consistent for every gate result and mode: when
    no training is triggered the delay is 0 and no notification is
    required; a notification is required only for a result that did not
    pass, with training triggered; the delay is 0, 1 or the relentless
    interval; and no dataset enhancement is ever listed. *)
Theorem triggers_consistent (self : Integrator.t)
    (quality_status : QualityStatus.t) (training_mode : string) :
  let triggers := _generate_automation_triggers self quality_status training_mode in
  (Triggers.trigger_next_training triggers = false ->
   Triggers.training_delay_hours triggers = 0%Z
   /\ Triggers.notification_required triggers = false)
  /\ (Triggers.notification_required triggers = true ->
      QualityStatus.overall_passed quality_status = false
      /\ Triggers.trigger_next_training triggers = true)
  /\ (Triggers.training_delay_hours triggers = 0%Z
      \/ Triggers.training_delay_hours triggers = 1%Z
      \/ Triggers.training_delay_hours triggers
         = TrainingTriggers.relentless_training_interval_hours
             (Config.training_triggers (Integrator.config self)))
  /\ Triggers.dataset_enhancements triggers = [].
Proof.
  intros triggers.
  destruct (automation_triggers_schedule self quality_status training_mode)
    as (Htrigger & Hdelay & Hnotify).
  fold triggers in Htrigger, Hdelay, Hnotify.
  rewrite Htrigger, Hdelay, Hnotify.
  assert (Hnone : Triggers.dataset_enhancements triggers = []).
  { subst triggers. unfold _generate_automation_triggers.
    destruct (negb _ && _), (training_mode =? "relentless"), (Py.lt _ _);
      reflexivity. }
  destruct (training_mode =? "relentless"),
    (QualityStatus.overall_passed quality_status),
    (TrainingTriggers.auto_retrain_on_failure _);
    cbn; intuition congruence.
Qed.

(** X15: a passed overall gate and the hyperparameter nudge exclude each
    other once the mode's threshold is at least 0.7: under such a threshold
    (the default development and production thresholds, not the default ci
    threshold 0.56) a result whose overall gate passed carries no
    hyperparameter adjustment. *)
Theorem passed_gate_no_adjustment (self : Integrator.t)
    (fidelity_metrics : gmap string float) (training_mode : string) :
  let result := _evaluate_quality_gates self fidelity_metrics training_mode in
  Py.ge (QualityStatus.min_required_fidelity result) 0.7 = true ->
  Gate.passed (Gates.overall_fidelity (QualityStatus.individual_gates result))
  = true ->
  Triggers.hyperparameter_adjustments
    (_generate_automation_triggers self result training_mode) = ∅.
Proof.
  intros result Hthreshold Hpassed.
  assert (Hscore : Py.ge (Gate.score (Gates.overall_fidelity
                            (QualityStatus.individual_gates result))) 0.7
                   = true).
  { eapply ge_trans; [exact Hpassed|exact Hthreshold]. }
  unfold _generate_automation_triggers. rewrite (ge_not_lt _ _ Hscore).
  destruct (negb _ && _), (training_mode =? "relentless"); reflexivity.
Qed.

(** A run at 0.72 in ["standard"] mode under the default configuration: it
    clears the development threshold 0.70 and gets no adjustment. *)
Lemma passed_gate_no_adjustment_witness :
  let self := fresh Config.default in
  let result := _evaluate_quality_gates self (uniform_metrics 0.72) "standard" in
  Triggers.hyperparameter_adjustments
    (_generate_automation_triggers self result "standard") = ∅.
Proof.
  exact (passed_gate_no_adjustment (fresh Config.default)
           (uniform_metrics 0.72) "standard" eq_refl eq_refl).
Defined.

(** ** Trends and the history *)

(** X16: the trend is ["initial"] exactly when the history is empty;
    otherwise it is computed from the last entry alone: two integrators
    with the same configuration whose histories end with entries of the
    same overall fidelity classify metrics of the same overall fidelity
    alike, whatever the earlier entries and the other scores. *)
Theorem trend_reads_last_entry :
  (forall (self : Integrator.t) (current_metrics : gmap string float),
     Trend.trend (_analyze_performance_trends self current_metrics) = "initial"
     <-> Integrator.improvement_history self = [])
  /\ (forall (self self' : Integrator.t)
             (current_metrics current_metrics' : gmap string float)
             (earlier earlier' : list History.t) (previous previous' : History.t),
        Integrator.config self' = Integrator.config self ->
        Integrator.improvement_history self = (earlier ++ [previous])%list ->
        Integrator.improvement_history self' = (earlier' ++ [previous'])%list ->
        get_metric (History.fidelity_metrics previous') "overall_fidelity"
        = get_metric (History.fidelity_metrics previous) "overall_fidelity" ->
        get_metric current_metrics' "overall_fidelity"
        = get_metric current_metrics "overall_fidelity" ->
        _analyze_performance_trends self' current_metrics'
        = _analyze_performance_trends self current_metrics).
Proof.
  split.
  - intros self current_metrics. unfold _analyze_performance_trends.
    rewrite <- last_None.
    destruct (last (Integrator.improvement_history self)) as [previous|].
    + split; [|discriminate].
      destruct (Py.gt _ _); [discriminate|].
      destruct (Py.lt _ _); discriminate.
    + split; reflexivity.
  - intros self self' current_metrics current_metrics' earlier earlier'
      previous previous' Hconfig Hhistory Hhistory' Hprevious Hcurrent.
    rewrite (analyze_performance_trends_snoc _ _ _ _ Hhistory),
      (analyze_performance_trends_snoc _ _ _ _ Hhistory').
    cbn zeta. now rewrite Hconfig, Hprevious, Hcurrent.
Qed.

(** Two histories of different lengths that end alike. *)
Lemma trend_reads_last_entry_witness :
  let entry (x : float) :=
    History.mk "t" {[ "overall_fidelity" := x ]} "failed" "standard" in
  _analyze_performance_trends
    (Integrator.mk Config.default ∅ [ entry 0.2%float; entry 0.8%float ])
    (uniform_metrics 0.9)
  = _analyze_performance_trends
      (Integrator.mk Config.default ∅ [ entry 0.8%float ])
      (uniform_metrics 0.9).
Proof.
  intros entry.
  exact (proj2 trend_reads_last_entry
           (Integrator.mk Config.default ∅ [ entry 0.8%float ])
           (Integrator.mk Config.default ∅ [ entry 0.2%float; entry 0.8%float ])
           (uniform_metrics 0.9) (uniform_metrics 0.9)
           [] [ entry 0.2%float ] (entry 0.8%float) (entry 0.8%float)
           eq_refl eq_refl eq_refl eq_refl eq_refl).
Defined.

(** X17: what a save stores is what the next analysis compares with.
    After an analysis is saved, the next analysis by the same integrator
    reports the saved run's overall fidelity as [previous_fidelity], its own
    as [current_fidelity], their difference as [change], and a trend that
    is not ["initial"]. *)
Theorem saved_run_is_previous (self : Integrator.t)
    (now1 now1' model_path1 : string) (evaluation_data1 : EvaluationData)
    (training_mode1 output_path : string)
    (now2 now2' model_path2 : string) (evaluation_data2 : EvaluationData)
    (training_mode2 : string) :
  let first :=
    analyze_training_results self now1 now1' model_path1 evaluation_data1
      training_mode1 in
  let saved := fst (save_analysis_results (snd first) (fst first) output_path) in
  let second :=
    fst (analyze_training_results saved now2 now2' model_path2
           evaluation_data2 training_mode2) in
  let trend := Analysis.performance_analysis second in
  Trend.previous_fidelity trend = Some (Analysis.overall_fidelity (fst first))
  /\ Trend.current_fidelity trend = Some (Analysis.overall_fidelity second)
  /\ Trend.change trend
     = (Analysis.overall_fidelity second
        - Analysis.overall_fidelity (fst first))%float
  /\ Trend.trend trend <> "initial".
Proof.
  intros first saved second trend.
  assert (Hhistory :
    Integrator.improvement_history saved
    = (Integrator.improvement_history self ++
         [ History.mk (Analysis.timestamp (fst first))
             {[ "overall_fidelity" := Analysis.overall_fidelity (fst first) ]}
             (QualityStatus.status (Analysis.quality_gate_status (fst first)))
             (Analysis.training_mode (fst first)) ])%list)
    by reflexivity.
  assert (Htrend := analyze_performance_trends_snoc saved
                      (default ∅ (fidelity_metrics evaluation_data2))
                      _ _ Hhistory).
  cbn zeta in Htrend. cbn [History.fidelity_metrics] in Htrend.
  change (_analyze_performance_trends saved
            (default ∅ (fidelity_metrics evaluation_data2)))
    with trend in Htrend.
  assert (Hstored :
    get_metric {[ "overall_fidelity" := Analysis.overall_fidelity (fst first) ]}
      "overall_fidelity" = Analysis.overall_fidelity (fst first)).
  { unfold get_metric. now rewrite lookup_singleton_eq. }
  rewrite Hstored in Htrend. rewrite Htrend.
  destruct (Py.gt _ _); [repeat split; discriminate|].
  destruct (Py.lt _ _); repeat split; discriminate.
Qed.

(** ** The command line *)

(** X18: a run of the command line starts from a new integrator, so its
    trend is always the ["initial"] baseline with a change of 0.0, whatever
    the metrics, the mode and the configuration; the file written holds the
    returned results under the requested path; and the integrator ends with
    a history of exactly one entry, the one of this run, one cached result
    and the configuration it was built with. *)
Theorem main_trend_is_initial (config : Config.t)
    (now now' model_path : string) (evaluation_data : EvaluationData)
    (training_mode output_path : string) :
  let outcome :=
    main_analyze_and_save config now now' model_path evaluation_data
      training_mode output_path in
  let results := fst (fst outcome) in
  let integrator := snd (fst outcome) in
  let written := snd outcome in
  Analysis.performance_analysis results
  = Trend.mk "initial" 0 "baseline" None None
  /\ written = (output_path, results)
  /\ Integrator.improvement_history integrator
     = [ History.mk now
           {[ "overall_fidelity" :=
                get_metric (default ∅ (fidelity_metrics evaluation_data))
                  "overall_fidelity" ]}
           (QualityStatus.status (Analysis.quality_gate_status results))
           training_mode ]
  /\ Integrator.results_cache integrator = {[ now' := results ]}
  /\ Integrator.config integrator = config.
Proof.
  unfold main_analyze_and_save. cbn. repeat split.
Qed.

(** ** The synthetic evaluation *)

(** The clamp of [_generate_fallback_evaluation_data] lands in [0.0, 1.0]
    for every float, a NaN included (it is clamped to 1.0). *)
Lemma clamp_in_unit_interval (score : float) :
  let clamped := py_max 0.0 (py_min 1.0 score) in
  Py.ge clamped 0.0 = true /\ Py.ge 1.0 clamped = true.
Proof.
  unfold py_min, py_max.
  destruct (Py.lt score 1.0) eqn:Hhigh.
  - destruct (Py.gt score 0.0) eqn:Hlow.
    + split; [exact (lt_ge _ _ Hlow)|exact (lt_ge _ _ Hhigh)].
    + split; reflexivity.
  - change (Py.gt 1.0 0.0) with true. cbn iota. split; reflexivity.
Qed.

(** X19: whatever the six random draws (infinities and NaN included) and
    however [sum] rounds, the synthetic evaluation reports exactly the six
    dimensions and the overall fidelity, and each of the six dimensions
    lies between 0.0 and 1.0. *)
Theorem fallback_scores_in_unit_interval (py_sum : list float -> float)
    (draws : Draws.t) (now : float) :
  let metrics :=
    Fallback.fidelity_metrics
      (_generate_fallback_evaluation_data py_sum draws now) in
  dom metrics
  = list_to_set
      [ "identity_recognition"; "persona_consistency";
        "adaptive_attention_understanding"; "recursive_reasoning_capability";
        "hypergraph_comprehension"; "cognitive_synergy_demonstration";
        "overall_fidelity" ]
  /\ forall (key : string) (score : float),
       key <> "overall_fidelity" ->
       metrics !! key = Some score ->
       Py.ge score 0.0 = true /\ Py.ge 1.0 score = true.
Proof.
  intros metrics. subst metrics.
  unfold _generate_fallback_evaluation_data.
  cbn [Fallback.fidelity_metrics map nth list_to_map foldr fst snd].
  split.
  - rewrite !dom_insert_L, dom_empty_L. cbn [list_to_set foldr]. reflexivity.
  - intros key score Hkey.
    repeat (rewrite lookup_insert; case_decide;
            [intros [= <-]; (apply clamp_in_unit_interval || congruence)|]).
    rewrite lookup_empty. discriminate.
Qed.

(** ** Merging the same update twice *)

Lemma distinct_keys_cons (key : string) (value : json) (items : dict) :
  distinct_keys (JDict ((key, value) :: items)) <->
  Dict.get key items = None /\ distinct_keys value
  /\ distinct_keys (JDict items).
Proof.
  cbn [distinct_keys Dict.keys map fst]. rewrite NoDup_cons.
  fold (Dict.keys items).
  assert (Hkey : key ∉ Dict.keys items <-> Dict.get key items = None).
  { split; [apply dict_get_None_notin|].
    induction items as [|[k v] items IH]; [intros _; apply not_elem_of_nil|].
    intros Hget. apply dict_get_cons_None in Hget as [Hne Hget].
    cbn [Dict.keys map fst]. rewrite not_elem_of_cons. auto. }
  rewrite Hkey. tauto.
Qed.

Lemma dict_set_same (key : string) (value : json) (d : dict) :
  Dict.get key d = Some value -> Dict.set key value d = d.
Proof.
  induction d as [|[k v] d IH]; simpl; [discriminate|].
  destruct (String.eqb_spec key k) as [->|Hne].
  - now intros [= ->].
  - intros Hget. now rewrite IH.
Qed.

Lemma dict_set_new (key : string) (value : json) (d : dict) :
  Dict.get key d = None -> Dict.set key value d = (d ++ [(key, value)])%list.
Proof.
  induction d as [|[k v] d IH]; simpl; [reflexivity|].
  destruct (String.eqb_spec key k); [discriminate|].
  intros Hget. now rewrite IH.
Qed.

Lemma dict_get_app_None (key : string) (d d' : dict) :
  Dict.get key d = None ->
  Dict.get key (d ++ d')%list = Dict.get key d'.
Proof.
  induction d as [|[k v] d IH]; simpl; [reflexivity|].
  destruct (String.eqb_spec key k); [discriminate|exact IH].
Qed.

(** Merging into a dictionary that shares no key with the update appends
    the update. *)
Lemma deep_update_disjoint (update_dict base_dict : dict) :
  distinct_keys (JDict update_dict) ->
  (forall key : string,
     key ∈ Dict.keys update_dict -> Dict.get key base_dict = None) ->
  _deep_update base_dict update_dict = (base_dict ++ update_dict)%list.
Proof.
  revert base_dict.
  induction update_dict as [|[k v] items IH]; intros base_dict Hd Hfresh.
  - now rewrite deep_update_nil, app_nil_r.
  - apply distinct_keys_cons in Hd as (Hk & _ & Hitems).
    rewrite deep_update_cons. unfold deep_update_step.
    assert (Hbase : Dict.get k base_dict = None).
    { apply Hfresh. apply list_elem_of_here. }
    rewrite Hbase. replace (merged_value None v) with v by now destruct v.
    rewrite (dict_set_new _ _ _ Hbase), IH.
    + now rewrite <- app_assoc.
    + exact Hitems.
    + intros key Hkey.
      assert (Hne : key <> k).
      { intros ->.
        assert (Hin : k ∉ Dict.keys items); [|contradiction].
        clear -Hk. induction items as [|[k' v'] items IH];
          [apply not_elem_of_nil|].
        apply dict_get_cons_None in Hk as [Hne Hk].
        cbn [Dict.keys map fst]. rewrite not_elem_of_cons. auto. }
      rewrite dict_get_app_None.
      * simpl. now destruct (String.eqb_spec key k).
      * apply Hfresh. now apply list_elem_of_further.
Qed.

(** Induction over a dictionary and the dictionaries it holds. *)
Lemma dict_nested_ind (P : dict -> Prop) :
  P [] ->
  (forall (key : string) (value : json) (items : dict),
     (forall sub : dict, value = JDict sub -> P sub) ->
     P items -> P ((key, value) :: items)) ->
  forall d : dict, P d.
Proof.
  intros Hnil Hcons.
  enough (Hjson : forall (v : json) (sub : dict), v = JDict sub -> P sub)
    by (intros d; exact (Hjson (JDict d) d eq_refl)).
  fix IH 1. intros v sub Hv. destruct v as [| | | | | |d]; try discriminate.
  injection Hv as <-.
  induction d as [|[k v] items IHitems].
  - exact Hnil.
  - apply Hcons; [apply IH|exact IHitems].
Qed.

(** X20: merging is idempotent.  Merging an update (with distinct keys at
    every level, as every Python dictionary has) into the result of merging
    it once changes nothing, whatever the base holds. *)
Theorem deep_update_idempotent (update_dict base_dict : dict) :
  distinct_keys (JDict update_dict) ->
  _deep_update (_deep_update base_dict update_dict) update_dict
  = _deep_update base_dict update_dict.
Proof.
  revert base_dict. pattern update_dict. apply dict_nested_ind.
  - reflexivity.
  - intros key value items IHsub IHitems base_dict Hd.
    apply distinct_keys_cons in Hd as (Hkey & Hvalue & Hitems).
    rewrite !deep_update_cons.
    set (base1 := deep_update_step base_dict key value).
    set (once := _deep_update base1 items).
    assert (Hheld : Dict.get key once
                    = Some (merged_value (Dict.get key base_dict) value)).
    { subst once. rewrite (deep_update_get_untouched _ _ _ Hkey).
      apply deep_update_step_get_eq. }
    assert (Habsorbed :
      merged_value (Some (merged_value (Dict.get key base_dict) value)) value
      = merged_value (Dict.get key base_dict) value).
    { destruct value as [| | | | | |sub]; try reflexivity.
      assert (Hself : _deep_update sub sub = sub).
      { rewrite <- (deep_update_disjoint sub [] Hvalue) at 1 3
          by reflexivity.
        exact (IHsub sub eq_refl [] Hvalue). }
      destruct (Dict.get key base_dict) as [[| | | | | |held]|];
        cbn [merged_value]; rewrite ?Hself; try reflexivity.
      now rewrite (IHsub sub eq_refl held Hvalue). }
    unfold deep_update_step at 1. rewrite Hheld, Habsorbed.
    rewrite (dict_set_same _ _ _ Hheld).
    exact (IHitems base1 Hitems).
Qed.

(** The override of one threshold, loaded twice over the defaults. *)
Lemma deep_update_idempotent_witness :
  let user_config :=
    [ ("quality_gates", JDict [ ("min_fidelity_production", JFloat 0.9) ]);
      ("notes", JDict [ ("owner", JStr "ci") ]) ] in
  _deep_update (_load_config (Some user_config)) user_config
  = _load_config (Some user_config).
Proof.
  intros user_config.
  apply (deep_update_idempotent user_config default_config).
  cbn [distinct_keys Dict.keys map fst].
  repeat split; try apply NoDup_nil_2;
    repeat (apply NoDup_cons; split;
            [rewrite ?elem_of_cons, ?elem_of_nil; intuition discriminate|]);
    apply NoDup_nil_2.
Defined.

(** ** A report without an overall fidelity *)

(** X21: a report that has no [overall_fidelity] (or no
    [fidelity_metrics] at all) is analysed with the score 0.0: whenever the
    threshold of the mode is above 0.0 the gates fail, the run is planned
    as [retrain_required] with [manual_review_needed] and as nothing else
    (a next cycle only in relentless mode), and the triggers carry both
    hyperparameter adjustments. *)
Theorem missing_overall_fidelity (self : Integrator.t)
    (now now' model_path : string) (evaluation_data : EvaluationData)
    (training_mode : string) :
  default ∅ (fidelity_metrics evaluation_data) !! "overall_fidelity" = None ->
  let results :=
    fst (analyze_training_results self now now' model_path evaluation_data
           training_mode) in
  Py.gt (QualityStatus.min_required_fidelity
           (Analysis.quality_gate_status results)) 0 = true ->
  Analysis.overall_fidelity results = 0%float
  /\ QualityStatus.status (Analysis.quality_gate_status results) = "failed"
  /\ Analysis.next_actions results
     = Actions.mk false false true false (training_mode =? "relentless") true
  /\ Triggers.hyperparameter_adjustments (Analysis.automation_triggers results)
     = {[ "learning_rate" := "increase"; "max_iters" := "increase" ]}.
Proof.
  intros Hmissing results Hthreshold.
  set (metrics := default ∅ (fidelity_metrics evaluation_data)) in *.
  set (quality_status := _evaluate_quality_gates self metrics training_mode).
  assert (Hscore : get_metric metrics "overall_fidelity" = 0%float).
  { unfold get_metric. now rewrite Hmissing. }
  assert (Hgate : Gate.passed (Gates.overall_fidelity
                    (QualityStatus.individual_gates quality_status)) = false).
  { change (Py.ge (get_metric metrics "overall_fidelity")
              (QualityStatus.min_required_fidelity quality_status) = false).
    rewrite Hscore. apply not_true_is_false. intros Hge.
    apply ge_not_lt in Hge. exact (eq_true_false_abs _ Hthreshold Hge). }
  assert (Hpassed : QualityStatus.overall_passed quality_status = false).
  { apply not_true_is_false. intros Hp.
    apply (proj1 (all_passed_iff _)) in Hp as (Ho & _).
    exact (eq_true_false_abs _ Ho Hgate). }
  assert (Hstatus : QualityStatus.status quality_status = "failed").
  { change (QualityStatus.status quality_status)
      with (if QualityStatus.overall_passed quality_status
            then "passed" else "failed").
    now rewrite Hpassed. }
  assert (Hready : QualityStatus.deployment_ready quality_status = false).
  { subst quality_status. rewrite deployment_ready_eq.
    fold (_evaluate_quality_gates self metrics training_mode).
    now rewrite Hpassed. }
  assert (Hzero : Gate.score (Gates.overall_fidelity
                    (QualityStatus.individual_gates quality_status)) = 0%float)
    by exact Hscore.
  split; [exact Hscore|]. split; [exact Hstatus|]. split.
  - change (Analysis.next_actions results)
      with (_determine_next_actions quality_status
              (_generate_improvement_recommendations metrics training_mode
                 quality_status) training_mode).
    unfold _determine_next_actions.
    rewrite (next_actions_branches_failed _ _ Hstatus Hready), Hready, Hzero.
    change (Py.lt 0 0.5) with true.
    now destruct (training_mode =? "relentless").
  - change (Analysis.automation_triggers results)
      with (_generate_automation_triggers self quality_status training_mode).
    unfold _generate_automation_triggers. rewrite Hzero.
    change (Py.lt 0 0.7) with true.
    destruct (negb _ && _), (training_mode =? "relentless"); cbn;
      apply insert_insert_ne; discriminate.
Qed.

(** A report with no metrics at all, in ["standard"] mode under the default
    configuration. *)
Lemma missing_overall_fidelity_witness :
  let results :=
    fst (analyze_training_results (fresh Config.default) "t0" "t0" "model"
           {| fidelity_metrics := None |} "standard") in
  QualityStatus.status (Analysis.quality_gate_status results) = "failed"
  /\ Analysis.next_actions results
     = Actions.mk false false true false false true.
Proof.
  destruct (missing_overall_fidelity (fresh Config.default) "t0" "t0" "model"
              {| fidelity_metrics := None |} "standard" eq_refl eq_refl)
    as (_ & Hstatus & Hactions & _).
  split; [exact Hstatus|exact Hactions].
Defined.
